(** * mith: passive reader for ATC1441 / pvvx BLE thermometers

    A shallow embedding of [mith.py] (the stateful decoder [MiTH]) and of
    [btle.py] (the receive loop [BtLe]), with the properties of the decoder
    and of the loop that the design document states about them.

    Python values are modelled as follows.
    - [bytes] is [list byte]; indexing yields an [int], which is [Z].
    - [int] is [Z] (unbounded, as in Python).
    - [float] is the primitive binary64 [float] of Rocq, so that Python's
      true division is IEEE 754 division, rounded to nearest even.
    - [str] is [string]; a [dict] keyed by [str] is a [gmap string _].
    - an exception is a constructor of [exn]; code that may raise and that
      mutates state lives in the monad [M]. *)

From Stdlib Require Import ZArith List Bool Lia PrimFloat Uint63.
From Stdlib.Strings Require Import Byte Ascii String.
From stdpp Require Import base option list gmap strings.

Open Scope Z_scope.

(** ** Python primitives *)

Module Py.

(** The exceptions the two files can meet. [KeyboardInterrupt] and
    [SystemExit] derive from [BaseException] only; every other one derives
    from [Exception], which is what [except Exception] catches. *)
Inductive exn : Type :=
| IndexError
| StructError
| KeyboardInterrupt
| SystemExit
| OSError (errno : Z)
| BluezError
| WrappedError (msg : string) (cause : exn)
| OtherException (msg : string).

Definition is_Exception (e : exn) : bool :=
  match e with
  | KeyboardInterrupt | SystemExit => false
  | _ => true
  end.

Inductive result (A : Type) : Type :=
| Ok (a : A)
| Raise (e : exn).
Arguments Ok {A} a.
Arguments Raise {A} e.

(** State and exceptions: a computation over a store [S]. *)
Definition M (S A : Type) : Type := S -> result A * S.

Definition ret {S A} (a : A) : M S A := fun s => (Ok a, s).
Definition raise {S A} (e : exn) : M S A := fun s => (Raise e, s).
Definition bind {S A B} (c : M S A) (k : A -> M S B) : M S B :=
  fun s =>
    match c s with
    | (Ok a, s') => k a s'
    | (Raise e, s') => (Raise e, s')
    end.
Definition gets {S A} (f : S -> A) : M S A := fun s => (Ok (f s), s).
Definition modify {S} (f : S -> S) : M S unit := fun s => (Ok tt, f s).
Definition lift {S A} (r : result A) : M S A := fun s => (r, s).

Declare Scope py_scope.
Delimit Scope py_scope with py.
Notation "x <- c ;; k" := (bind c (fun x => k))
  (at level 100, c at next level, right associativity) : py_scope.
Notation "c ;;; k" := (bind c (fun _ => k))
  (at level 100, right associativity) : py_scope.

(** *** bytes *)

Definition byte_val (b : byte) : Z := Z.of_N (Byte.to_N b).

Definition len {A} (s : list A) : Z := Z.of_nat (length s).

(** [s[i]] on a [bytes] object: a negative index counts from the end, an
    index out of range raises [IndexError]. *)
Definition getitem (s : list byte) (i : Z) : result Z :=
  let j := if i <? 0 then i + len s else i in
  if (0 <=? j) && (j <? len s) then
    match s !! Z.to_nat j with
    | Some b => Ok (byte_val b)
    | None => Raise IndexError
    end
  else Raise IndexError.

(** Slice bounds are clamped, never raise. *)
Definition clamp (n i : Z) : Z :=
  if i <? 0 then Z.max 0 (i + n) else Z.min i n.

(** [s[lo:hi]] *)
Definition slice {A} (s : list A) (lo hi : Z) : list A :=
  let l := clamp (len s) lo in
  let h := clamp (len s) hi in
  firstn (Z.to_nat (h - l)) (skipn (Z.to_nat l) s).

(** [s[lo:]] *)
Definition slice_from {A} (s : list A) (lo : Z) : list A :=
  skipn (Z.to_nat (clamp (len s) lo)) s.

Fixpoint startswith (s sub : list byte) {struct sub} : bool :=
  match sub, s with
  | [], _ => true
  | _ :: _, [] => false
  | b :: sub', c :: s' => Byte.eqb b c && startswith s' sub'
  end.

(** [s.find(sub)] scanning from position [i]: the lowest index at which
    [sub] occurs, or [-1]. *)
Fixpoint find_from (s sub : list byte) (i : Z) : Z :=
  if startswith s sub then i
  else match s with
       | [] => -1
       | _ :: s' => find_from s' sub (i + 1)
       end.

Definition find (s sub : list byte) : Z := find_from s sub 0.

(** *** int.from_bytes *)

Inductive byteorder : Type := big | little.

Definition unsigned_be (bs : list byte) : Z :=
  fold_left (fun acc b => acc * 256 + byte_val b) bs 0.

(** [int.from_bytes(bs, byteorder=order, signed=signed)]; the byte order
    defaults to ['big'] and [signed] to [False]. *)
Definition int_from_bytes (bs : list byte) (order : byteorder) (signed : bool) : Z :=
  let u := unsigned_be (match order with big => bs | little => rev bs end) in
  let bits := 8 * len bs in
  if signed && (0 <? bits) && (2 ^ (bits - 1) <=? u) then u - 2 ^ bits else u.

(** *** float *)

(** [float(z)] for an [int]; exact for [|z| < 2^53]. *)
Definition float_of_int (z : Z) : float :=
  if z <? 0 then PrimFloat.opp (PrimFloat.of_uint63 (Uint63.of_Z (- z)))
  else PrimFloat.of_uint63 (Uint63.of_Z z).

(** [z / f] with [z] an [int] and [f] a [float]. *)
Definition truediv_int_float (z : Z) (f : float) : float :=
  PrimFloat.div (float_of_int z) f.

(** [z / d] with both [int]: the correctly rounded quotient, which for
    operands below [2^53] is the quotient of the two conversions. *)
Definition truediv_int_int (z d : Z) : float :=
  PrimFloat.div (float_of_int z) (float_of_int d).

(** Truth value of a [float]: zero of either sign is false. *)
Definition float_truthy (f : float) : bool := negb (PrimFloat.eqb f 0%float).

(** A number that is an [int] on one path and a [float] on another. *)
Inductive num : Type :=
| Int (z : Z)
| Float (f : float).

End Py.

(** ** mith.py: the decoder *)

Module MiTH.
Import Py.

(** *** Configuration *)

(** [sensors]: the literal repeats one key, so the dict has one entry,
    the later one. *)
Definition sensors : gmap string string :=
  <["A4:C1:38:xx:xx:xx" := "kitchen"]> (<["A4:C1:38:xx:xx:xx" := "living room"]> ∅).

Definition VERBOSE : bool := false.
Definition DEBUG : bool := false.

Inductive DeviceType : Type := ATC1441 | PVVX.

(** Wall-clock time as [datetime.now()] returns it, in microseconds. *)
Definition datetime : Type := Z.

(** The dataclass. Its field [sensor_name] is [sensor_name_of] here, the
    plain name being the method of [MiTH]. *)
Record Measurement : Type := {
  device_type : DeviceType;
  adv_number : Z;
  adv_missed : Z;
  timestamp : datetime;
  temperature : float;
  humidity : num;
  battery_voltage : Z;
  battery_percentage : Z;
  sensor_name_of : string
}.

Definition set_sensor_name (m : Measurement) (name : string) : Measurement :=
  {| device_type := device_type m; adv_number := adv_number m;
     adv_missed := adv_missed m; timestamp := timestamp m;
     temperature := temperature m; humidity := humidity m;
     battery_voltage := battery_voltage m;
     battery_percentage := battery_percentage m;
     sensor_name_of := name |}.

(** What [log] prints, before formatting. *)
Inductive log_line : Type :=
| UnknownPacket (mac : string) (packet : list byte)
| UnknownDeviceType (mac : string) (data_len : Z)
| AdvUnchanged (name : string) (adv : Z)
| Reading (m : Measurement) (rssi : Z) (elapsed : option float) (missed : option Z).

(** The two class-level dicts of [MiTH], and the lines printed so far. *)
Record state : Type := {
  _adv_counter : gmap string Z;
  _latest_measurement_time : gmap string float;
  printed : list log_line
}.

Definition log (l : log_line) : M state unit :=
  modify (fun s => {| _adv_counter := _adv_counter s;
                      _latest_measurement_time := _latest_measurement_time s;
                      printed := printed s ++ [l] |}).

Definition vlog (l : log_line) : M state unit :=
  if VERBOSE then log l else ret tt.

Definition dlog (l : log_line) : M state unit :=
  if DEBUG then log l else ret tt.

Definition set_adv_counter (mac : string) (n : Z) : M state unit :=
  modify (fun s => {| _adv_counter := <[mac := n]> (_adv_counter s);
                      _latest_measurement_time := _latest_measurement_time s;
                      printed := printed s |}).

Definition set_latest_measurement_time (mac : string) (t : float) : M state unit :=
  modify (fun s => {| _adv_counter := _adv_counter s;
                      _latest_measurement_time := <[mac := t]> (_latest_measurement_time s);
                      printed := printed s |}).

(** *** sensor_name *)

Definition not_newline (c : ascii) : bool :=
  negb (Ascii.eqb c "010"%char).

Fixpoint strip_prefix (p s : string) : option string :=
  match p, s with
  | EmptyString, _ => Some s
  | String a p', String b s' => if Ascii.eqb a b then strip_prefix p' s' else None
  | String _ _, EmptyString => None
  end.

(** [re.match('A4:C1:38:(..):(..):(..)', mac)]: anchored at the start
    only; a dot is any character but a newline. *)
Definition match_mac (mac : string) : option (string * string * string) :=
  match strip_prefix "A4:C1:38:" mac with
  | Some (String a (String b (String sep1 (String c (String d
         (String sep2 (String e (String f _)))))))) =>
      if forallb not_newline [a; b; c; d; e; f]
         && Ascii.eqb sep1 ":"%char && Ascii.eqb sep2 ":"%char
      then Some (String a (String b EmptyString),
                 String c (String d EmptyString),
                 String e (String f EmptyString))
      else None
  | _ => None
  end.

Definition str_truthy (s : string) : bool :=
  match s with EmptyString => false | _ => true end.

Definition sensor_name (mac : string) : string :=
  match sensors !! mac with
  | Some name => if str_truthy name then name
                 else match match_mac mac with
                      | Some (g1, g2, g3) => g1 +:+ g2 +:+ g3
                      | None => mac
                      end
  | None => match match_mac mac with
            | Some (g1, g2, g3) => g1 +:+ g2 +:+ g3
            | None => mac
            end
  end.

(** *** decode_data_atc *)

Definition preamble : list byte := [x16; x1a; x18].

(** The branch on [data_len]: the device type and the index of the
    advertisement number, or nothing for an unknown length. *)
Definition classify (data_len : Z) : option (DeviceType * Z) :=
  if data_len =? 13 then Some (ATC1441, -1)
  else if data_len =? 15 then Some (PVVX, -2)
  else None.

(** [(adv_number - adv_number_prev - 1) if adv_number_prev else 0]: the
    condition is the truth value of the previous number, false for [None]
    and for [0]. *)
Definition missed (adv_number : Z) (adv_number_prev : option Z) : Z :=
  match adv_number_prev with
  | Some p => if p =? 0 then 0 else adv_number - p - 1
  | None => 0
  end.

(** [adv_number == adv_number_prev], the right side possibly [None]. *)
Definition same_adv (adv_number : Z) (adv_number_prev : option Z) : bool :=
  match adv_number_prev with
  | Some p => adv_number =? p
  | None => false
  end.

(** The four fields read from [data], by device type:
    temperature, humidity, battery_voltage, battery_percentage. The
    battery voltage of the ATC1441 format is read by [int.from_bytes] with
    no byte order given, which is big-endian (Python 3.11 and later). *)
Definition fields (device_type : DeviceType) (data : list byte)
  : result (float * num * Z * Z) :=
  match device_type with
  | ATC1441 =>
      let temperature := truediv_int_float (int_from_bytes (slice data 6 8) big true) 10%float in
      match getitem data 8 with
      | Raise e => Raise e
      | Ok humidity =>
          match getitem data 9 with
          | Raise e => Raise e
          | Ok battery_percentage =>
              let battery_voltage := int_from_bytes (slice data 10 12) big false in
              Ok (temperature, Int humidity, battery_voltage, battery_percentage)
          end
      end
  | PVVX =>
      let temperature := truediv_int_float (int_from_bytes (slice data 6 8) little true) 100%float in
      let humidity := truediv_int_int (int_from_bytes (slice data 8 10) little false) 100 in
      let battery_voltage := int_from_bytes (slice data 10 12) little false in
      match getitem data 12 with
      | Raise e => Raise e
      | Ok battery_percentage =>
          Ok (temperature, Float humidity, battery_voltage, battery_percentage)
      end
  end.

(** [decode_data_atc(mac, packet)]; [now] is what [datetime.now()]
    returns when the measurement is built. *)
Definition decode_data_atc (now : datetime) (mac : string) (packet : list byte)
  : M state (option Measurement) :=
  (let packet_start := find packet preamble in
   if packet_start =? -1 then
     dlog (UnknownPacket mac packet) ;;; ret None
   else
     let offset := packet_start + len preamble in
     let data := slice_from packet offset in
     let data_len := len data in
     match classify data_len with
     | None => dlog (UnknownDeviceType mac data_len) ;;; ret None
     | Some (device_type, adv_number_offset) =>
         adv_number <- lift (getitem data adv_number_offset) ;;
         adv_number_prev <- gets (fun s => _adv_counter s !! mac) ;;
         if same_adv adv_number adv_number_prev then
           vlog (AdvUnchanged (sensor_name mac) adv_number) ;;; ret None
         else
           let adv_missed := missed adv_number adv_number_prev in
           set_adv_counter mac adv_number ;;;
           f <- lift (fields device_type data) ;;
           let '(temperature, humidity, battery_voltage, battery_percentage) := f in
           ret (Some {| device_type := device_type; adv_number := adv_number;
                        adv_missed := adv_missed; timestamp := now;
                        temperature := temperature; humidity := humidity;
                        battery_voltage := battery_voltage;
                        battery_percentage := battery_percentage;
                        sensor_name_of := "" |})
     end)%py.

(** *** le_advertise_packet_handler *)

(** [elapsed = now - previous if (previous := ...get(mac)) else None] *)
Definition elapsed_since (now : float) (previous : option float) : option float :=
  match previous with
  | Some p => if float_truthy p then Some (PrimFloat.sub now p) else None
  | None => None
  end.

(** [elapsed_str] is empty when [elapsed] is [None] or zero. *)
Definition shown_elapsed (elapsed : option float) : option float :=
  match elapsed with
  | Some e => if float_truthy e then Some e else None
  | None => None
  end.

(** [now_dt] is [datetime.now()], [now] is [time.perf_counter()]. A
    dataclass instance is always true, so the body runs for every
    measurement returned. *)
Definition le_advertise_packet_handler (now_dt : datetime) (now : float)
    (mac : string) (adv_type : Z) (data : list byte) (rssi : Z) : M state unit :=
  (decoded <- decode_data_atc now_dt mac data ;;
   match decoded with
   | None => ret tt
   | Some measurement =>
       let measurement := set_sensor_name measurement (sensor_name mac) in
       previous <- gets (fun s => _latest_measurement_time s !! mac) ;;
       let elapsed := elapsed_since now previous in
       set_latest_measurement_time mac now ;;;
       log (Reading measurement rssi (shown_elapsed elapsed)
              (if adv_missed measurement =? 0 then None
               else Some (adv_missed measurement)))
   end)%py.

(** *** The wire formats, as the design document words them

    Offsets count from the first byte after the preamble. *)

Definition u8 (data : list byte) (off : nat) : Z :=
  byte_val (nth off data x00).

Definition u16_be (data : list byte) (off : nat) : Z :=
  256 * u8 data off + u8 data (S off).

Definition u16_le (data : list byte) (off : nat) : Z :=
  u8 data off + 256 * u8 data (S off).

(** Two's complement reading of a 16-bit value. *)
Definition s16 (u : Z) : Z := if u <? 32768 then u else u - 65536.

(** [sub] occurs somewhere in [s]. *)
Definition contains (s sub : list byte) : Prop :=
  exists pre suf, s = pre ++ sub ++ suf.

(** [data] is what follows the first occurrence of [sub] in [s]. *)
Definition after_first (s sub data : list byte) : Prop :=
  exists pre, s = pre ++ sub ++ data /\
    forall pre' suf', s = pre' ++ sub ++ suf' -> (length pre <= length pre')%nat.

(** The last sequence number recorded for [mac], if any. *)
Definition recorded (s : state) (mac : string) : option Z :=
  _adv_counter s !! mac.

End MiTH.

(** ** btle.py: the radio and the receive loop *)

Module BtLe.
Import Py.

Definition LE_META_EVENT : Z := 0x3E.
Definition LE_PUBLIC_ADDRESS : Z := 0x00.
Definition SCAN_TYPE_PASSIVE : Z := 0x00.
Definition SCAN_FILTER_DUPLICATES : Z := 0x01.
Definition SCAN_DISABLE : Z := 0x00.
Definition SCAN_ENABLE : Z := 0x01.
Definition FILTER_POLICY_NO_WHITELIST : Z := 0x00.
Definition OGF_LE_CTL : Z := 0x08.
Definition OCF_LE_SET_SCAN_PARAMETERS : Z := 0x000B.
Definition OCF_LE_SET_SCAN_ENABLE : Z := 0x000C.
Definition EVT_LE_ADVERTISING_REPORT : Z := 0x02.

(** [errno.EALREADY] on Linux. *)
Definition EALREADY : Z := 114.

(** *** struct *)

Definition byte_of (z : Z) : byte :=
  match Byte.of_N (Z.to_N (z mod 256)) with
  | Some b => b
  | None => x00
  end.

(** Format code [B]. *)
Definition pack_B (z : Z) : list byte := [byte_of z].

(** Format code [H] under [<]. *)
Definition pack_H_le (z : Z) : list byte := [byte_of z; byte_of (z / 256)].

Definition signed8 (v : Z) : Z := if v <? 128 then v else v - 256.

(** [struct.unpack("BBB", b)]: the buffer must hold exactly 3 bytes. *)
Definition unpack_BBB (b : list byte) : result (Z * Z * Z) :=
  match b with
  | [x; y; z] => Ok (byte_val x, byte_val y, byte_val z)
  | _ => Raise StructError
  end.

(** [struct.unpack("B", b)[0]] *)
Definition unpack_B (b : list byte) : result Z :=
  match b with
  | [x] => Ok (byte_val x)
  | _ => Raise StructError
  end.

(** [struct.unpack("b", b)[0]] *)
Definition unpack_b (b : list byte) : result Z :=
  match b with
  | [x] => Ok (signed8 (byte_val x))
  | _ => Raise StructError
  end.

(** *** The radio, as a stub that records what is done to it *)

(** The 16 bytes [getsockopt(SOL_HCI, HCI_FILTER, 16)] returns. *)
Definition hci_filter : Type := list byte.

Inductive call : Type :=
| Ioctl (code request : Z)
| OpenDev (device_id : Z)
| GetFilter
| SetFilter (f : hci_filter)
| SendCmd (ogf ocf : Z) (cmd_pkt : list byte).

Inductive print_line : Type :=
| HandlerException (e : exn)
| Traceback (e : exn)
| FailedSettingFilter (f : hci_filter) (e : exn).

(** What one call of [sock.recv] does: hand over a frame, or raise
    ([KeyboardInterrupt] when the interrupt arrives while it blocks, an
    [OSError] when the socket fails). *)
Inductive recv_event : Type :=
| Frame (pkt : list byte)
| RecvRaises (e : exn).

Record radio : Type := {
  ioctl_errno : option Z;        (* the errno [ioctl] fails with, if it fails *)
  open_error : option exn;       (* what [hci_open_dev] raises, if it raises *)
  setsockopt_faults : list bool; (* per [setsockopt] call: does it raise [bluez.error] *)
  installed_filter : hci_filter; (* the filter installed on the socket *)
  calls : list call;             (* the calls made so far, oldest first *)
  stdout : list print_line
}.

Definition record_call (c : call) (r : radio) : radio :=
  {| ioctl_errno := ioctl_errno r; open_error := open_error r;
     setsockopt_faults := setsockopt_faults r; installed_filter := installed_filter r;
     calls := calls r ++ [c]; stdout := stdout r |}.

Definition print (l : print_line) : M radio unit :=
  modify (fun r =>
    {| ioctl_errno := ioctl_errno r; open_error := open_error r;
       setsockopt_faults := setsockopt_faults r; installed_filter := installed_filter r;
       calls := calls r; stdout := stdout r ++ [l] |}).

(** [sock.getsockopt(bluez.SOL_HCI, bluez.HCI_FILTER, 16)] *)
Definition getsockopt : M radio hci_filter :=
  fun r => (Ok (installed_filter r), record_call GetFilter r).

(** [sock.setsockopt(bluez.SOL_HCI, bluez.HCI_FILTER, f)] *)
Definition setsockopt (f : hci_filter) : M radio unit :=
  fun r =>
    let fault := match setsockopt_faults r with b :: _ => b | [] => false end in
    let r' := {| ioctl_errno := ioctl_errno r; open_error := open_error r;
                 setsockopt_faults := tail (setsockopt_faults r);
                 installed_filter := if fault then installed_filter r else f;
                 calls := calls r ++ [SetFilter f]; stdout := stdout r |} in
    (if fault then Raise BluezError else Ok tt, r').

(** [bluez.hci_send_cmd(sock, ogf, ocf, cmd_pkt)] *)
Definition hci_send_cmd (ogf ocf : Z) (cmd_pkt : list byte) : M radio unit :=
  modify (record_call (SendCmd ogf ocf cmd_pkt)).

(** [try: c  except <catches> as e: h e] *)
Definition try_except {S A} (c : M S A) (catches : exn -> bool) (h : exn -> M S A)
  : M S A :=
  fun s =>
    match c s with
    | (Ok a, s') => (Ok a, s')
    | (Raise e, s') => if catches e then h e s' else (Raise e, s')
    end.

Definition is_KeyboardInterrupt (e : exn) : bool :=
  match e with KeyboardInterrupt => true | _ => false end.

Definition is_bluez_error (e : exn) : bool :=
  match e with BluezError => true | _ => false end.

(** How a call that never returns normally ends: waiting in [recv] for
    ever, or with an exception. [Returned] is for the callers. *)
Inductive outcome : Type :=
| Blocked
| Raised (e : exn)
| Returned.

Section Session.

(** From [bluetooth._bluetooth]: [ba2str], the filter that
    [hci_filter_new], [hci_filter_set_ptype (HCI_EVENT_PKT)] and
    [hci_filter_set_event (LE_META_EVENT)] build, and [HCIDEVUP]. *)
Variable ba2str : list byte -> string.
Variable new_filter : hci_filter.
Variable HCIDEVUP : Z.

(** The caller's handler, with a store of its own. *)
Variable H : Type.
Variable handler : string -> Z -> list byte -> Z -> M H unit.

Definition on_radio {A} (c : M radio A) : M (radio * H) A :=
  fun st => let '(a, r) := c st.1 in (a, (r, st.2)).

Definition on_handler {A} (c : M H A) : M (radio * H) A :=
  fun st => let '(a, h) := c st.2 in (a, (st.1, h)).

(** [_toggle_device]: the request is the first item of the array of
    signed bytes that [struct.pack("H", dev_id)] gives. *)
Definition _toggle_device (dev_id code : Z) : M radio unit :=
  if (0 <=? dev_id) && (dev_id <? 65536) then
    fun r =>
      let r' := record_call (Ioctl code (signed8 (dev_id mod 256))) r in
      match ioctl_errno r with
      | Some errno =>
          if errno =? EALREADY then (Ok tt, r') else (Raise (OSError errno), r')
      | None => (Ok tt, r')
      end
  else raise StructError.

Definition device_enable (dev_id : Z) : M radio unit :=
  _toggle_device dev_id HCIDEVUP.

(** [bluez.HCIDEVDOWN], for [device_disable]. *)
Variable HCIDEVDOWN : Z.

Definition device_disable (dev_id : Z) : M radio unit :=
  _toggle_device dev_id HCIDEVDOWN.

(** [open]: [bluez.hci_open_dev(device_id)] *)
Definition open (device_id : Z) : M radio unit :=
  fun r =>
    match open_error r with
    | Some e => (Raise e, r)
    | None => (Ok tt, record_call (OpenDev device_id) r)
    end.

Definition le_scan_enable : M radio unit :=
  (let own_bdaddr_type := LE_PUBLIC_ADDRESS in
   let interval := 0x0800 in
   let window := 0x0800 in
   let filter_policy := FILTER_POLICY_NO_WHITELIST in
   let cmd_pkt := pack_B SCAN_TYPE_PASSIVE ++ pack_H_le interval
                  ++ pack_H_le window ++ pack_B own_bdaddr_type
                  ++ pack_B filter_policy in
   hci_send_cmd OGF_LE_CTL OCF_LE_SET_SCAN_PARAMETERS cmd_pkt ;;;
   let filter_duplicates := false in
   let cmd_pkt := pack_B SCAN_ENABLE
                  ++ pack_B (if filter_duplicates then SCAN_FILTER_DUPLICATES
                             else 0x00) in
   hci_send_cmd OGF_LE_CTL OCF_LE_SET_SCAN_ENABLE cmd_pkt)%py.

Definition le_scan_disable : M radio unit :=
  let cmd_pkt := pack_B SCAN_DISABLE ++ pack_B 0x00 in
  hci_send_cmd OGF_LE_CTL OCF_LE_SET_SCAN_ENABLE cmd_pkt.

(** One pass through the body of [while True], from the frame that
    [recv] returned: [Ok tt] is the next iteration, by [continue] or by
    reaching the end of the body. *)
Definition loop_body (full_pkt : list byte) : M (radio * H) unit :=
  (let pkt := full_pkt in
   hdr <- lift (unpack_BBB (slice pkt 0 3)) ;;
   let '(ptype, event, plen) := hdr in
   if negb (event =? LE_META_EVENT) then ret tt
   else
     sub_event <- lift (unpack_B (slice pkt 3 4)) ;;
     if negb (sub_event =? EVT_LE_ADVERTISING_REPORT) then ret tt
     else
       let pkt := slice_from pkt 4 in
       adv_type <- lift (unpack_b (slice pkt 1 2)) ;;
       let mac_addr_str := ba2str (slice pkt 3 9) in
       let data := slice pkt 9 (-1) in
       rssi <- lift (unpack_b (slice full_pkt (len full_pkt - 1) (len full_pkt))) ;;
       try_except
         (on_handler (handler mac_addr_str adv_type data rssi))
         is_Exception
         (fun e => on_radio (print (HandlerException e) ;;; print (Traceback e))))%py.

(** [while True]: each turn takes what [sock.recv(255)] does next; with
    nothing left to receive the call blocks. *)
Fixpoint receive_loop (inbox : list recv_event) (st : radio * H)
  : outcome * (radio * H) :=
  match inbox with
  | [] => (Blocked, st)
  | RecvRaises e :: _ => (Raised e, st)
  | Frame pkt :: inbox' =>
      match loop_body (firstn 255 pkt) st with
      | (Ok _, st') => receive_loop inbox' st'
      | (Raise e, st') => (Raised e, st')
      end
  end.

(** The handler of [except KeyboardInterrupt] in
    [parse_le_advertising_events]. *)
Definition restore_filter (old_filter : hci_filter) : M radio unit :=
  try_except (setsockopt old_filter) is_bluez_error
    (fun e => print (FailedSettingFilter old_filter e)).

Definition parse_le_advertising_events (inbox : list recv_event)
    (st : radio * H) : outcome * (radio * H) :=
  match on_radio getsockopt st with
  | (Raise e, st1) => (Raised e, st1)
  | (Ok old_filter, st1) =>
      match on_radio (setsockopt new_filter) st1 with
      | (Raise e, st2) => (Raised e, st2)
      | (Ok _, st2) =>
          match receive_loop inbox st2 with
          | (Raised KeyboardInterrupt, st3) =>
              match on_radio (restore_filter old_filter) st3 with
              | (Raise e, st4) => (Raised e, st4)
              | (Ok _, st4) => (Raised KeyboardInterrupt, st4)
              end
          | other => other
          end
      end
  end.

(** [handle_le_advertising_events]: the message of the exception that
    wraps a failure of [open] is kept without the device number. *)
Definition handle_le_advertising_events (device_id : Z)
    (inbox : list recv_event) (st : radio * H) : outcome * (radio * H) :=
  match on_radio (device_enable device_id) st with
  | (Raise e, st1) => (Raised e, st1)
  | (Ok _, st1) =>
      match on_radio (open device_id) st1 with
      | (Raise e, st2) =>
          if is_Exception e
          then (Raised (WrappedError "Error: cannot open bluetooth device" e), st2)
          else (Raised e, st2)
      | (Ok _, st2) =>
          match on_radio le_scan_enable st2 with
          | (Raise e, st3) => (Raised e, st3)
          | (Ok _, st3) =>
              match parse_le_advertising_events inbox st3 with
              | (Raised KeyboardInterrupt, st4) =>
                  match on_radio le_scan_disable st4 with
                  | (Raise e, st5) => (Raised e, st5)
                  | (Ok _, st5) => (Returned, st5)
                  end
              | other => other
              end
          end
      end
  end.

End Session.

(** What the loop writes when the handler fails. *)
Definition logged (e : exn) (r : radio) : radio :=
  {| ioctl_errno := ioctl_errno r; open_error := open_error r;
     setsockopt_faults := setsockopt_faults r;
     installed_filter := installed_filter r; calls := calls r;
     stdout := stdout r ++ [HandlerException e; Traceback e] |}.

(** Two radios that differ at most in what was printed. *)
Definition same_socket (r r' : radio) : Prop :=
  ioctl_errno r' = ioctl_errno r /\ open_error r' = open_error r /\
  setsockopt_faults r' = setsockopt_faults r /\
  installed_filter r' = installed_filter r /\ calls r' = calls r.

End BtLe.

(** ** mith.py: the decoder as the handler of the receive loop *)

Module Main.
Import Py MiTH.

Section Clock.

(** The two clocks, by the number of handler calls made before: what
    [datetime.now()] and [time.perf_counter()] return during that call. *)
Variable wall : nat -> datetime.
Variable perf : nat -> float.

Variable ba2str : list byte -> string.
Variable new_filter : BtLe.hci_filter.
Variable HCIDEVUP : Z.

(** The bound method [self.le_advertise_packet_handler], over the state of
    the decoder and the count of calls. *)
Definition handler (mac : string) (adv_type : Z) (data : list byte) (rssi : Z)
  : M (state * nat) unit :=
  fun st =>
    let '(r, s') :=
      le_advertise_packet_handler (wall st.2) (perf st.2) mac adv_type data rssi st.1 in
    (r, (s', S st.2)).

(** [MiTH(device_id).event_loop_passive()] *)
Definition event_loop_passive (device_id : Z) (inbox : list BtLe.recv_event)
    (st : BtLe.radio * (state * nat)) : BtLe.outcome * (BtLe.radio * (state * nat)) :=
  BtLe.handle_le_advertising_events ba2str new_filter HCIDEVUP (state * nat) handler
    device_id inbox st.

End Clock.

End Main.

(** ** Sample advertisements *)

Module Samples.
Import Py MiTH.

Definition mac1 : string := "A4:C1:38:01:02:03".

Definition fresh : state :=
  {| _adv_counter := ∅; _latest_measurement_time := ∅; printed := [] |}.

(** The state after sequence number [n] was recorded for [mac1]. *)
Definition seen (n : Z) : state :=
  {| _adv_counter := <[mac1 := n]> ∅;
     _latest_measurement_time := <[mac1 := 1%float]> ∅;
     printed := [] |}.

(** The 13 data bytes of an ATC1441 advertisement: address, temperature
    [0x00FA], humidity 45, battery 90 percent, [0x0BB8] millivolts, and
    the sequence byte. *)
Definition atc_data (seq : byte) : list byte :=
  [xa4; xc1; x38; x01; x02; x03; x00; xfa; x2d; x5a; x0b; xb8; seq].

Definition atc_packet (seq : byte) : list byte :=
  [x02; x01; x06; x10] ++ preamble ++ atc_data seq.

(** The 15 data bytes of a pvvx advertisement: address, temperature
    [0xF62E] and humidity [0x1770] little-endian, [0x0BB8] millivolts
    little-endian, battery 90 percent, the sequence byte and the flags. *)
Definition pvvx_data (seq : byte) : list byte :=
  [x03; x02; x01; x38; xc1; xa4; x2e; xf6; x70; x17; xb8; x0b; x5a; seq; x04].

Definition pvvx_packet (seq : byte) : list byte :=
  [x02; x01; x06; x12] ++ preamble ++ pvvx_data seq.

(** No preamble. *)
Definition foreign_packet : list byte := [x02; x01; x06; x03; x16; x1a; x19].

(** A preamble followed by 4 bytes. *)
Definition short_packet : list byte := [x02; x16; x1a; x18; x01; x02; x03; x04].

(** *** For the radio *)

Definition hex_digit (n : Z) : ascii :=
  nth (Z.to_nat n) (list_ascii_of_string "0123456789ABCDEF") "0"%char.

Definition hex_byte (b : byte) : string :=
  String (hex_digit (byte_val b / 16))
    (String (hex_digit (byte_val b mod 16)) EmptyString).

Fixpoint join_colon (l : list string) : string :=
  match l with
  | [] => EmptyString
  | [x] => x
  | x :: l' => x +:+ ":" +:+ join_colon l'
  end.

(** A stand-in for [bluez.ba2str]: the bytes from last to first, in
    hexadecimal, colon-separated. *)
Definition ba2str (addr : list byte) : string :=
  join_colon (map hex_byte (rev addr)).

(** The filter for packet type [HCI_EVENT_PKT] and event [0x3E]. *)
Definition new_filter : BtLe.hci_filter :=
  [x10; x00; x00; x00; x00; x00; x00; x00;
   x00; x00; x00; x40; x00; x00; x00; x00].

Definition old_filter : BtLe.hci_filter := replicate 16 x00.

Definition HCIDEVUP : Z := 0x400448C9.

Definition idle_radio : BtLe.radio :=
  {| BtLe.ioctl_errno := None; BtLe.open_error := None;
     BtLe.setsockopt_faults := []; BtLe.installed_filter := old_filter;
     BtLe.calls := []; BtLe.stdout := [] |}.

(** A handler that keeps what it is called with. *)
Definition keep (mac : string) (adv_type : Z) (data : list byte) (rssi : Z)
  : M (list (string * Z * list byte * Z)) unit :=
  modify (fun l => l ++ [(mac, adv_type, data, rssi)]).

(** A handler that raises [e] on every call. *)
Definition failing (e : exn) (mac : string) (adv_type : Z) (data : list byte)
    (rssi : Z) : M unit unit :=
  raise e.

(** A whole advertising report, signal strength -60. *)
Definition report_frame : list byte :=
  [x04; x3e; x21; x02; x01; x00; x00; x03; x02; x01; x38; xc1; xa4; x14]
  ++ atc_packet x07 ++ [xc4].

(** Two bytes: less than a header. *)
Definition stub_frame : list byte := [x04; x3e].

End Samples.

(** ** More samples: radios that fail, the parts of a report, clocks *)

Module MoreSamples.
Import Py MiTH Samples.

(** A radio whose [ioctl], open and [setsockopt] calls fail as given. *)
Definition radio_with (errno : option Z) (open_err : option exn)
    (faults : list bool) : BtLe.radio :=
  {| BtLe.ioctl_errno := errno; BtLe.open_error := open_err;
     BtLe.setsockopt_faults := faults; BtLe.installed_filter := old_filter;
     BtLe.calls := []; BtLe.stdout := [] |}.

(** The address bytes and the data of [report_frame]. *)
Definition report_addr : list byte := [x03; x02; x01; x38; xc1; xa4].
Definition report_data : list byte := x14 :: atc_packet x07.

(** A wall clock that advances a second, and a performance counter that
    advances by one, with each call of the handler. *)
Definition wall (n : nat) : datetime := 1000000 * Z.of_nat n.
Definition perf (n : nat) : float := float_of_int (Z.of_nat (S n)).

End MoreSamples.

(** ** Facts about the Python primitives *)

Module PyFacts.
Import Py.

Lemma startswith_spec (s sub : list byte) :
  startswith s sub = true <-> exists suf, s = sub ++ suf.
Proof.
  revert s; induction sub as [|b sub IH]; intros s; simpl.
  - split; [intros _; by exists s | done].
  - destruct s as [|c s].
    + split; [done | by intros [suf H]].
    + rewrite andb_true_iff, IH. split.
      * intros [E [suf ->]]. apply Byte.byte_dec_bl in E as ->. by exists suf.
      * intros [suf H]. injection H as -> ->.
        split; [by apply Byte.byte_dec_lb | by exists suf].
Qed.

Lemma len_nonneg {A} (s : list A) : 0 <= len s.
Proof. unfold len; lia. Qed.

Lemma len_app {A} (s t : list A) : len (s ++ t) = len s + len t.
Proof. unfold len. rewrite length_app. lia. Qed.

(** [find] answers [-1] exactly when the pattern occurs nowhere. *)
Lemma find_from_absent (s sub : list byte) (i : Z) :
  0 <= i ->
  find_from s sub i = -1 <-> ~ exists pre suf, s = pre ++ sub ++ suf.
Proof.
  revert i; induction s as [|a s IH]; intros i Hi; simpl.
  - destruct (startswith [] sub) eqn:E.
    + apply startswith_spec in E as [suf E]. split; [lia|].
      intros N; destruct N. by exists [], suf.
    + split; [|done]. intros _ (pre & suf & H).
      assert (startswith [] sub = true) as E'; [|congruence].
      apply startswith_spec. destruct pre; [by exists suf | done].
  - destruct (startswith (a :: s) sub) eqn:E.
    + apply startswith_spec in E as [suf E]. split; [lia|].
      intros N; destruct N. by exists [], suf.
    + rewrite IH by lia. split.
      * intros N (pre & suf & H). destruct pre as [|p pre].
        -- assert (startswith (a :: s) sub = true) as E'; [|congruence].
           apply startswith_spec. by exists suf.
        -- injection H as -> ->. apply N. by exists pre, suf.
      * intros N (pre & suf & ->). apply N. by exists (a :: pre), suf.
Qed.

(** [find] answers the position of the first occurrence. *)
Lemma find_from_first (sub data pre : list byte) (i : Z) :
  (forall pre' suf', pre ++ sub ++ data = pre' ++ sub ++ suf' ->
                     (length pre <= length pre')%nat) ->
  find_from (pre ++ sub ++ data) sub i = i + len pre.
Proof.
  revert i; induction pre as [|a pre IH]; intros i Hmin.
  - simpl app. unfold len; simpl length.
    assert (startswith (sub ++ data) sub = true) as E
      by (apply startswith_spec; by exists data).
    destruct (sub ++ data); simpl; rewrite E; lia.
  - simpl app.
    assert (startswith (a :: pre ++ sub ++ data) sub = false) as E.
    { destruct (startswith _ sub) eqn:E; [|done].
      apply startswith_spec in E as [suf E].
      specialize (Hmin [] suf E). simpl in Hmin. lia. }
    simpl. rewrite E. rewrite IH.
    + unfold len; simpl length. lia.
    + intros pre' suf' H. specialize (Hmin (a :: pre') suf').
      simpl in Hmin. rewrite H in Hmin. specialize (Hmin eq_refl). lia.
Qed.

Lemma slice_from_app {A} (pre suf : list A) :
  slice_from (pre ++ suf) (len pre) = suf.
Proof.
  unfold slice_from, clamp.
  pose proof (len_nonneg pre). pose proof (len_nonneg suf).
  destruct (Z.ltb_spec (len pre) 0); [lia|].
  rewrite len_app, Z.min_l by lia.
  unfold len. rewrite Nat2Z.id. by rewrite drop_app_length.
Qed.

End PyFacts.

(** ** Facts about the decoder *)

Module MiTHFacts.
Import Py PyFacts MiTH.

(** *** Reading bytes *)

Lemma getitem_nonneg (data : list byte) (i : Z) :
  0 <= i < len data -> getitem data i = Ok (u8 data (Z.to_nat i)).
Proof.
  intros H. unfold getitem, u8.
  destruct (Z.ltb_spec i 0); [lia|].
  destruct (Z.leb_spec 0 i); [|lia].
  destruct (Z.ltb_spec i (len data)); [|lia]. simpl.
  rewrite nth_lookup.
  destruct (data !! Z.to_nat i) eqn:E; [done|].
  apply lookup_ge_None in E. unfold len in H. lia.
Qed.

Lemma getitem_neg (data : list byte) (k : Z) :
  0 < k <= len data -> getitem data (- k) = Ok (u8 data (Z.to_nat (len data - k))).
Proof.
  intros H. unfold getitem, u8.
  destruct (Z.ltb_spec (- k) 0); [|lia].
  replace (- k + len data) with (len data - k) by lia.
  destruct (Z.leb_spec 0 (len data - k)); [|lia].
  destruct (Z.ltb_spec (len data - k) (len data)); [|lia]. simpl.
  rewrite nth_lookup.
  destruct (data !! Z.to_nat (len data - k)) eqn:E; [done|].
  apply lookup_ge_None in E. unfold len in *. lia.
Qed.

(** The index is in range exactly when [getitem] does not raise. *)
Lemma getitem_raises (data : list byte) (i : Z) :
  (exists e, getitem data i = Raise e) <-> ~ (- len data <= i < len data).
Proof.
  split.
  - intros [e H] Hr. destruct (Z.ltb_spec i 0).
    + replace i with (- (- i)) in H by lia.
      rewrite getitem_neg in H by lia. done.
    + rewrite getitem_nonneg in H by lia. done.
  - intros Hr. exists IndexError. unfold getitem.
    pose proof (len_nonneg data).
    destruct (Z.ltb_spec i 0).
    + destruct (Z.leb_spec 0 (i + len data)); [|done].
      destruct (Z.ltb_spec (i + len data) (len data)); [lia|done].
    + destruct (Z.leb_spec 0 i); [|done].
      destruct (Z.ltb_spec i (len data)); [lia|done].
Qed.

Lemma slice_pair (data : list byte) (lo hi : Z) :
  0 <= lo -> hi = lo + 2 -> hi <= len data ->
  slice data lo hi = [nth (Z.to_nat lo) data x00; nth (S (Z.to_nat lo)) data x00].
Proof.
  intros Hlo -> Hhi. unfold slice, clamp.
  destruct (Z.ltb_spec lo 0); [lia|].
  destruct (Z.ltb_spec (lo + 2) 0); [lia|].
  rewrite !Z.min_l by lia.
  replace (Z.to_nat (lo + 2 - lo)) with 2%nat by lia.
  assert (S (Z.to_nat lo) < length data)%nat as Hn by (unfold len in Hhi; lia).
  remember (Z.to_nat lo) as n eqn:En. clear En Hlo Hhi H H0 lo.
  revert n Hn. induction data as [|a data IH]; intros n Hn; [simpl in Hn; lia|].
  destruct n as [|n].
  - destruct data as [|b data]; [simpl in Hn; lia|]. reflexivity.
  - simpl. apply IH. simpl in Hn. lia.
Qed.

Lemma from_bytes_be_u16 (a b : byte) :
  int_from_bytes [a; b] big false = 256 * byte_val a + byte_val b.
Proof. unfold int_from_bytes, unsigned_be. simpl. lia. Qed.

Lemma from_bytes_le_u16 (a b : byte) :
  int_from_bytes [a; b] little false = byte_val a + 256 * byte_val b.
Proof. unfold int_from_bytes, unsigned_be. simpl. lia. Qed.

Lemma from_bytes_be_s16 (a b : byte) :
  int_from_bytes [a; b] big true = s16 (256 * byte_val a + byte_val b).
Proof.
  unfold int_from_bytes, unsigned_be, s16. simpl fold_left.
  replace (8 * len [a; b]) with 16 by reflexivity.
  change (2 ^ (16 - 1)) with 32768. change (2 ^ 16) with 65536.
  replace ((0 * 256 + byte_val a) * 256 + byte_val b)
    with (256 * byte_val a + byte_val b) by lia.
  simpl andb.
  destruct (Z.leb_spec 32768 (256 * byte_val a + byte_val b)),
           (Z.ltb_spec (256 * byte_val a + byte_val b) 32768); lia.
Qed.

Lemma from_bytes_le_s16 (a b : byte) :
  int_from_bytes [a; b] little true = s16 (byte_val a + 256 * byte_val b).
Proof.
  unfold int_from_bytes, unsigned_be, s16. simpl rev. simpl fold_left.
  replace (8 * len [a; b]) with 16 by reflexivity.
  change (2 ^ (16 - 1)) with 32768. change (2 ^ 16) with 65536.
  replace ((0 * 256 + byte_val b) * 256 + byte_val a)
    with (byte_val a + 256 * byte_val b) by lia.
  simpl andb.
  destruct (Z.leb_spec 32768 (byte_val a + 256 * byte_val b)),
           (Z.ltb_spec (byte_val a + 256 * byte_val b) 32768); lia.
Qed.

(** *** The field reads of each format *)

Lemma fields_ATC1441 (data : list byte) :
  12 <= len data ->
  fields ATC1441 data =
    Ok (truediv_int_float (s16 (u16_be data 6)) 10%float,
        Int (u8 data 8), u16_be data 10, u8 data 9).
Proof.
  intros H. unfold fields.
  rewrite (slice_pair data 6 8), (slice_pair data 10 12) by lia.
  rewrite !getitem_nonneg by lia.
  by rewrite from_bytes_be_s16, from_bytes_be_u16.
Qed.

Lemma fields_PVVX (data : list byte) :
  13 <= len data ->
  fields PVVX data =
    Ok (truediv_int_float (s16 (u16_le data 6)) 100%float,
        Float (truediv_int_int (u16_le data 8) 100),
        u16_le data 10, u8 data 12).
Proof.
  intros H. unfold fields.
  rewrite (slice_pair data 6 8), (slice_pair data 8 10),
    (slice_pair data 10 12) by lia.
  rewrite !getitem_nonneg by lia.
  by rewrite from_bytes_le_s16, !from_bytes_le_u16.
Qed.

(** *** Locating the data *)

Lemma find_preamble (pre data : list byte) :
  (forall pre' suf', pre ++ preamble ++ data = pre' ++ preamble ++ suf' ->
                     (length pre <= length pre')%nat) ->
  find (pre ++ preamble ++ data) preamble = len pre.
Proof. intros H. unfold find. by rewrite find_from_first. Qed.

Lemma data_after (pre data : list byte) :
  slice_from (pre ++ preamble ++ data) (len pre + len preamble) = data.
Proof. by rewrite app_assoc, <- len_app, slice_from_app. Qed.

(** Every packet either lacks the preamble or has data after its first
    occurrence. *)
Lemma find_from_found (s sub : list byte) (i : Z) :
  find_from s sub i <> -1 ->
  exists data, after_first s sub data.
Proof.
  revert i; induction s as [|a s IH]; intros i; simpl.
  - destruct (startswith [] sub) eqn:E; [|done]. intros _.
    apply startswith_spec in E as [suf E]. exists suf, []. split; [done|].
    intros; simpl; lia.
  - destruct (startswith (a :: s) sub) eqn:E.
    + intros _. apply startswith_spec in E as [suf E]. exists suf, [].
      split; [done|]. intros; simpl; lia.
    + intros H. apply IH in H as (data & pre & -> & Hmin).
      exists data, (a :: pre). split; [done|].
      intros pre' suf' H'. destruct pre' as [|p pre'].
      * assert (startswith (a :: pre ++ sub ++ data) sub = true) as E';
          [|congruence].
        apply startswith_spec. by exists suf'.
      * injection H' as _ H'. apply Hmin in H'. simpl. lia.
Qed.

Lemma after_first_unique (s sub d1 d2 : list byte) :
  after_first s sub d1 -> after_first s sub d2 -> d1 = d2.
Proof.
  intros (p1 & E1 & M1) (p2 & E2 & M2).
  pose proof (M1 _ _ E2). pose proof (M2 _ _ E1).
  assert (length p1 = length p2) as Hl by lia.
  rewrite E1 in E2. apply app_inj_1 in E2 as [_ E2]; [|done].
  by apply app_inv_head in E2.
Qed.

(** *** The outcomes of [decode_data_atc] *)

Lemma same_adv_true (seq : Z) (prev : option Z) :
  same_adv seq prev = true <-> prev = Some seq.
Proof.
  destruct prev as [p|]; simpl; [|done].
  rewrite Z.eqb_eq. split; [by intros -> | by intros [= ->]].
Qed.

Lemma same_adv_false (seq : Z) (prev : option Z) :
  same_adv seq prev = false <-> prev <> Some seq.
Proof.
  rewrite <- same_adv_true. by destruct (same_adv seq prev).
Qed.

(** Rewrites [decode_data_atc] up to the branch on the data length. *)
Ltac locate pre Hmin :=
  unfold decode_data_atc; cbv zeta;
  rewrite (find_preamble pre _ Hmin);
  let E := fresh in
  destruct (Z.eqb_spec (len pre) (-1)) as [E|_];
  [pose proof (len_nonneg pre); lia|];
  rewrite (data_after pre _).

Lemma decode_no_preamble now mac (packet : list byte) (s : state) :
  ~ contains packet preamble ->
  decode_data_atc now mac packet s = (Ok None, s).
Proof.
  intros H. unfold decode_data_atc; cbv zeta.
  assert (find packet preamble = -1) as ->
    by (apply find_from_absent; [lia | exact H]).
  reflexivity.
Qed.

Lemma decode_unclassified now mac (packet data : list byte) (s : state) :
  after_first packet preamble data ->
  classify (len data) = None ->
  decode_data_atc now mac packet s = (Ok None, s).
Proof.
  intros (pre & -> & Hmin) Hc. locate pre Hmin. by rewrite Hc.
Qed.

Lemma decode_duplicate now mac (packet data : list byte) (s : state) dt off seq :
  after_first packet preamble data ->
  classify (len data) = Some (dt, off) ->
  getitem data off = Ok seq ->
  recorded s mac = Some seq ->
  decode_data_atc now mac packet s = (Ok None, s).
Proof.
  intros (pre & -> & Hmin) Hc Hg Hr. locate pre Hmin. rewrite Hc.
  unfold bind, lift, gets. rewrite Hg.
  apply same_adv_true in Hr. unfold recorded in Hr. by rewrite Hr.
Qed.

Lemma decode_fresh now mac (packet data : list byte) (s : state) dt off seq f :
  after_first packet preamble data ->
  classify (len data) = Some (dt, off) ->
  getitem data off = Ok seq ->
  recorded s mac <> Some seq ->
  fields dt data = Ok f ->
  decode_data_atc now mac packet s =
    (Ok (Some {| device_type := dt; adv_number := seq;
                 adv_missed := missed seq (recorded s mac); timestamp := now;
                 temperature := f.1.1.1; humidity := f.1.1.2;
                 battery_voltage := f.1.2; battery_percentage := f.2;
                 sensor_name_of := "" |}),
     {| _adv_counter := <[mac := seq]> (_adv_counter s);
        _latest_measurement_time := _latest_measurement_time s;
        printed := printed s |}).
Proof.
  intros (pre & -> & Hmin) Hc Hg Hr Hf. locate pre Hmin. rewrite Hc.
  unfold bind, lift, gets. rewrite Hg.
  apply same_adv_false in Hr. unfold recorded in *. rewrite Hr.
  unfold set_adv_counter, modify, ret. rewrite Hf.
  by destruct f as [[[t h] v] p].
Qed.

Lemma classify_13 (n : Z) : n = 13 -> classify n = Some (ATC1441, -1).
Proof. by intros ->. Qed.

Lemma classify_15 (n : Z) : n = 15 -> classify n = Some (PVVX, -2).
Proof. by intros ->. Qed.

Lemma classify_other (n : Z) : n <> 13 -> n <> 15 -> classify n = None.
Proof.
  intros H1 H2. unfold classify.
  destruct (Z.eqb_spec n 13); [done|]. by destruct (Z.eqb_spec n 15).
Qed.

Lemma classify_Some (n : Z) dt off :
  classify n = Some (dt, off) ->
  (n = 13 /\ dt = ATC1441 /\ off = -1) \/ (n = 15 /\ dt = PVVX /\ off = -2).
Proof.
  unfold classify. destruct (Z.eqb_spec n 13); [intros [= <- <-]; by left|].
  destruct (Z.eqb_spec n 15); [intros [= <- <-]; by right | done].
Qed.

(** After classification neither the sequence byte nor a field read is
    out of range. *)
Lemma classified_reads (data : list byte) dt off :
  classify (len data) = Some (dt, off) ->
  getitem data off = Ok (u8 data (Z.to_nat (len data + off))) /\
  exists f, fields dt data = Ok f.
Proof.
  intros H. apply classify_Some in H as [(Hl & -> & ->)|(Hl & -> & ->)].
  - split; [change (-1) with (Z.opp 1); by rewrite getitem_neg by lia|].
    rewrite fields_ATC1441 by lia. by eexists.
  - split; [change (-2) with (Z.opp 2); by rewrite getitem_neg by lia|].
    rewrite fields_PVVX by lia. by eexists.
Qed.

End MiTHFacts.

(** ** Facts about the receive loop *)

Module BtLeFacts.
Import Py PyFacts BtLe.

Lemma slice_inside {A} (l : list A) (lo hi : Z) :
  0 <= lo <= hi -> hi <= len l ->
  slice l lo hi = firstn (Z.to_nat (hi - lo)) (skipn (Z.to_nat lo) l).
Proof.
  intros H1 H2. unfold slice, clamp.
  destruct (Z.ltb_spec lo 0); [lia|]. destruct (Z.ltb_spec hi 0); [lia|].
  by rewrite !Z.min_l by lia.
Qed.

Lemma len_cons {A} (a : A) (l : list A) : len (a :: l) = 1 + len l.
Proof. unfold len; simpl length; lia. Qed.

Lemma slice_0_3 (a b c : byte) (l : list byte) :
  slice (a :: b :: c :: l) 0 3 = [a; b; c].
Proof.
  rewrite slice_inside; [reflexivity | lia |].
  rewrite !len_cons. pose proof (len_nonneg l). lia.
Qed.

Lemma slice_3_4 (a b c d : byte) (l : list byte) :
  slice (a :: b :: c :: d :: l) 3 4 = [d].
Proof.
  rewrite slice_inside; [reflexivity | lia |].
  rewrite !len_cons. pose proof (len_nonneg l). lia.
Qed.

Lemma slice_1_2 (a b : byte) (l : list byte) :
  slice (a :: b :: l) 1 2 = [b].
Proof.
  rewrite slice_inside; [reflexivity | lia |].
  rewrite !len_cons. pose proof (len_nonneg l). lia.
Qed.

Lemma slice_from_4 (a b c d : byte) (l : list byte) :
  slice_from (a :: b :: c :: d :: l) 4 = l.
Proof.
  unfold slice_from, clamp. simpl (4 <? 0).
  rewrite Z.min_l; [reflexivity|].
  rewrite !len_cons. pose proof (len_nonneg l). lia.
Qed.

Lemma slice_last (a : byte) (l : list byte) :
  slice (a :: l) (len (a :: l) - 1) (len (a :: l)) = [List.last (a :: l) x00].
Proof.
  pose proof (len_nonneg l). rewrite slice_inside by (rewrite len_cons; lia).
  replace (Z.to_nat (len (a :: l) - (len (a :: l) - 1))) with 1%nat by lia.
  replace (Z.to_nat (len (a :: l) - 1)) with (length l)
    by (rewrite len_cons; unfold len; lia).
  clear H. revert a. induction l as [|b l IH]; intros a; [reflexivity|].
  change (skipn (length (b :: l)) (a :: b :: l)) with (skipn (length l) (b :: l)).
  rewrite IH. reflexivity.
Qed.

Lemma unpack_BBB_short (pkt : list byte) :
  len pkt < 3 -> unpack_BBB (slice pkt 0 3) = Raise StructError.
Proof.
  intros H. destruct pkt as [|a [|b [|c pkt]]]; try reflexivity.
  rewrite !len_cons in H. pose proof (len_nonneg pkt). lia.
Qed.

Lemma unpack_b_short (l : list byte) :
  (length l < 2)%nat -> unpack_b (slice l 1 2) = Raise StructError.
Proof.
  intros H. destruct l as [|a [|b l]]; try reflexivity. simpl in H. lia.
Qed.

Lemma unpack_BBB_raises b e : unpack_BBB b = Raise e -> e = StructError.
Proof. destruct b as [|? [|? [|? [|? ?]]]]; simpl; congruence. Qed.

Lemma unpack_B_raises b e : unpack_B b = Raise e -> e = StructError.
Proof. destruct b as [|? [|? ?]]; simpl; congruence. Qed.

Lemma unpack_b_raises b e : unpack_b b = Raise e -> e = StructError.
Proof. destruct b as [|? [|? ?]]; simpl; congruence. Qed.

Lemma same_socket_refl r : same_socket r r.
Proof. by repeat split. Qed.

Lemma same_socket_trans r1 r2 r3 :
  same_socket r1 r2 -> same_socket r2 r3 -> same_socket r1 r3.
Proof.
  intros (?&?&?&?&?) (?&?&?&?&?). repeat split; congruence.
Qed.

Section Loop.
Variable ba2str : list byte -> string.
Variable H : Type.
Variable handler : string -> Z -> list byte -> Z -> M H unit.

Lemma loop_body_short (pkt : list byte) (st : radio * H) :
  len pkt < 3 -> loop_body ba2str H handler pkt st = (Raise StructError, st).
Proof.
  intros Hl. unfold loop_body, bind, lift. by rewrite unpack_BBB_short.
Qed.

Lemma loop_body_other_event (a e c : byte) (l : list byte) (st : radio * H) :
  byte_val e <> LE_META_EVENT ->
  loop_body ba2str H handler (a :: e :: c :: l) st = (Ok tt, st).
Proof.
  intros He. unfold loop_body, bind, lift. rewrite slice_0_3. simpl.
  by destruct (Z.eqb_spec (byte_val e) LE_META_EVENT).
Qed.

Lemma loop_body_no_sub_event (a c : byte) (st : radio * H) :
  loop_body ba2str H handler [a; x3e; c] st = (Raise StructError, st).
Proof. reflexivity. Qed.

Lemma loop_body_other_sub_event (a c d : byte) (l : list byte) (st : radio * H) :
  byte_val d <> EVT_LE_ADVERTISING_REPORT ->
  loop_body ba2str H handler (a :: x3e :: c :: d :: l) st = (Ok tt, st).
Proof.
  intros Hd. unfold loop_body, bind, lift. rewrite slice_0_3, slice_3_4. simpl.
  by destruct (Z.eqb_spec (byte_val d) EVT_LE_ADVERTISING_REPORT).
Qed.

Lemma loop_body_short_report (a c : byte) (l : list byte) (st : radio * H) :
  (length l < 2)%nat ->
  loop_body ba2str H handler (a :: x3e :: c :: x02 :: l) st = (Raise StructError, st).
Proof.
  intros Hl. unfold loop_body, bind, lift.
  rewrite slice_0_3, slice_3_4, slice_from_4. simpl.
  by rewrite unpack_b_short.
Qed.

(** A frame of six bytes or more that passes both checks reaches the
    handler. *)
Lemma loop_body_report (a c n t : byte) (l : list byte) (st : radio * H) :
  loop_body ba2str H handler (a :: x3e :: c :: x02 :: n :: t :: l) st =
    try_except
      (on_handler H (handler (ba2str (slice (n :: t :: l) 3 9))
                           (signed8 (byte_val t))
                           (slice (n :: t :: l) 9 (-1))
                           (signed8 (byte_val (List.last (t :: l) x00)))))
      is_Exception
      (fun e => on_radio H (bind (print (HandlerException e))
                                 (fun _ => print (Traceback e)))) st.
Proof.
  unfold loop_body, bind at 1 2 3 4, lift.
  rewrite slice_0_3, slice_3_4, slice_from_4. simpl negb. cbv iota beta.
  rewrite slice_1_2. cbv iota beta.
  rewrite slice_last. reflexivity.
Qed.

Lemma loop_body_raises (pkt : list byte) (st st' : radio * H) e :
  loop_body ba2str H handler pkt st = (Raise e, st') ->
  e = StructError \/ is_Exception e = false.
Proof.
  unfold loop_body, bind, lift.
  destruct (unpack_BBB _) as [[[ptype event] plen]|e0] eqn:E1.
  2: { intros [= <- _]. left. by apply unpack_BBB_raises in E1. }
  destruct (negb (event =? LE_META_EVENT)); [done|].
  destruct (unpack_B _) as [sub|e0] eqn:E2.
  2: { intros [= <- _]. left. by apply unpack_B_raises in E2. }
  destruct (negb (sub =? EVT_LE_ADVERTISING_REPORT)); [done|].
  destruct (unpack_b _) as [adv|e0] eqn:E3.
  2: { intros [= <- _]. left. by apply unpack_b_raises in E3. }
  destruct (unpack_b (slice pkt _ _)) as [rssi|e0] eqn:E4.
  2: { intros [= <- _]. left. by apply unpack_b_raises in E4. }
  unfold try_except, on_handler, on_radio, print, modify.
  destruct (handler _ _ _ _ st.2) as [[u|e0] h'] eqn:E5; [done|].
  destruct (is_Exception e0) eqn:E6; [done|].
  intros [= <- _]. by right.
Qed.

Lemma loop_body_socket (pkt : list byte) (st : radio * H) :
  same_socket st.1 (loop_body ba2str H handler pkt st).2.1.
Proof.
  unfold loop_body, bind, lift.
  destruct (unpack_BBB _) as [[[ptype event] plen]|e0];
    [|apply same_socket_refl].
  destruct (negb (event =? LE_META_EVENT)); [apply same_socket_refl|].
  destruct (unpack_B _) as [sub|e0]; [|apply same_socket_refl].
  destruct (negb (sub =? EVT_LE_ADVERTISING_REPORT)); [apply same_socket_refl|].
  destruct (unpack_b _) as [adv|e0]; [|apply same_socket_refl].
  destruct (unpack_b (slice pkt _ _)) as [rssi|e0]; [|apply same_socket_refl].
  unfold try_except, on_handler, on_radio, print, modify.
  destruct (handler _ _ _ _ st.2) as [[u|e0] h']; [apply same_socket_refl|].
  destruct (is_Exception e0); by repeat split.
Qed.

Lemma receive_loop_socket (inbox : list recv_event) (st : radio * H) :
  same_socket st.1 (receive_loop ba2str H handler inbox st).2.1.
Proof.
  revert st; induction inbox as [|ev inbox IH]; intros st; simpl.
  - apply same_socket_refl.
  - destruct ev as [pkt|e]; [|apply same_socket_refl].
    pose proof (loop_body_socket (firstn 255 pkt) st) as Hb.
    destruct (loop_body _ _ _ _ st) as [[u|e] st']; [|exact Hb].
    eapply same_socket_trans; [exact Hb | apply IH].
Qed.

(** The loop itself never returns. *)
Lemma receive_loop_never_returns (inbox : list recv_event) (st : radio * H) :
  (receive_loop ba2str H handler inbox st).1 <> Returned.
Proof.
  revert st; induction inbox as [|ev inbox IH]; intros st; simpl; [done|].
  destruct ev as [pkt|e]; [|done].
  destruct (loop_body _ _ _ _ st) as [[u|e] st']; [apply IH | done].
Qed.

End Loop.

End BtLeFacts.

(** ** The decoder against its description *)

Module MiTHSpec.
Import Py PyFacts MiTH MiTHFacts Samples.

(** Whatever [decode_data_atc] returns as a measurement comes from the
    data after the first preamble, classified, with a sequence byte that
    is not the recorded one. *)
Lemma decode_Some_inv now mac (packet : list byte) (s : state) (m : Measurement) :
  (decode_data_atc now mac packet s).1 = Ok (Some m) ->
  exists data dt off f,
    after_first packet preamble data /\
    classify (len data) = Some (dt, off) /\
    fields dt data = Ok f /\
    recorded s mac <> Some (u8 data (Z.to_nat (len data + off))) /\
    m = {| device_type := dt;
           adv_number := u8 data (Z.to_nat (len data + off));
           adv_missed := missed (u8 data (Z.to_nat (len data + off))) (recorded s mac);
           timestamp := now;
           temperature := f.1.1.1; humidity := f.1.1.2;
           battery_voltage := f.1.2; battery_percentage := f.2;
           sensor_name_of := "" |}.
Proof.
  intros H.
  destruct (Z.eq_dec (find packet preamble) (-1)) as [E|E].
  { unfold decode_data_atc in H; cbv zeta in H. rewrite E in H. done. }
  destruct (find_from_found _ _ _ E) as [data Ha].
  destruct (classify (len data)) as [[dt off]|] eqn:Hc.
  2: { by rewrite (decode_unclassified _ _ _ _ _ Ha Hc) in H. }
  destruct (classified_reads _ _ _ Hc) as [Hg [f Hf]].
  destruct (decide (recorded s mac = Some (u8 data (Z.to_nat (len data + off)))))
    as [Hr|Hr].
  { by rewrite (decode_duplicate _ _ _ _ _ _ _ _ Ha Hc Hg Hr) in H. }
  rewrite (decode_fresh _ _ _ _ _ _ _ _ _ Ha Hc Hg Hr Hf) in H.
  injection H as <-. by exists data, dt, off, f.
Qed.

(** The sample packets carry their data after the first preamble. *)
Lemma atc_packet_data (seq : byte) :
  after_first (atc_packet seq) preamble (atc_data seq).
Proof.
  exists [x02; x01; x06; x10]. split; [reflexivity|].
  intros pre' suf' H.
  destruct pre' as [|a [|b [|c [|d pre']]]]; simpl; try lia; discriminate H.
Qed.

Lemma pvvx_packet_data (seq : byte) :
  after_first (pvvx_packet seq) preamble (pvvx_data seq).
Proof.
  exists [x02; x01; x06; x12]. split; [reflexivity|].
  intros pre' suf' H.
  destruct pre' as [|a [|b [|c [|d pre']]]]; simpl; try lia; discriminate H.
Qed.

Lemma short_packet_data :
  after_first short_packet preamble [x01; x02; x03; x04].
Proof.
  exists [x02]. split; [reflexivity|].
  intros pre' suf' H. destruct pre' as [|a pre']; simpl; [discriminate H | lia].
Qed.

Lemma foreign_packet_no_preamble : ~ contains foreign_packet preamble.
Proof. apply (find_from_absent _ _ 0); [lia | reflexivity]. Qed.

Lemma seen_recorded (n : Z) : recorded (seen n) mac1 = Some n.
Proof. unfold recorded, seen; simpl. apply lookup_insert_eq. Qed.

Lemma fresh_recorded (mac : string) : recorded fresh mac = None.
Proof. unfold recorded, fresh; simpl. apply lookup_empty. Qed.

(** C6. A payload without the 3-byte preamble decodes to [None]. With
    the preamble, the bytes after its first occurrence decide: a length
    other than 13 or 15 gives [None]; length 13 is the ATC1441 format,
    whose sequence byte is the last one; length 15 is the pvvx format,
    whose sequence byte is the second to last. The sequence byte is the
    number recorded for the address after the call, and the number of the
    measurement when one is returned. *)
Theorem decode_classification now mac (packet : list byte) (s : state) :
  (~ contains packet preamble ->
     decode_data_atc now mac packet s = (Ok None, s)) /\
  (forall data, after_first packet preamble data ->
     (len data <> 13 -> len data <> 15 ->
        decode_data_atc now mac packet s = (Ok None, s)) /\
     (len data = 13 ->
        recorded (decode_data_atc now mac packet s).2 mac
          = Some (u8 data (length data - 1)) /\
        (recorded s mac <> Some (u8 data (length data - 1)) ->
           exists m, (decode_data_atc now mac packet s).1 = Ok (Some m) /\
                     device_type m = ATC1441 /\
                     adv_number m = u8 data (length data - 1))) /\
     (len data = 15 ->
        recorded (decode_data_atc now mac packet s).2 mac
          = Some (u8 data (length data - 2)) /\
        (recorded s mac <> Some (u8 data (length data - 2)) ->
           exists m, (decode_data_atc now mac packet s).1 = Ok (Some m) /\
                     device_type m = PVVX /\
                     adv_number m = u8 data (length data - 2)))).
Proof.
  split; [apply decode_no_preamble|].
  intros data Ha. split; [|split].
  - intros H13 H15. apply (decode_unclassified _ _ _ data); [done|].
    by apply classify_other.
  - intros Hl. pose proof (classify_13 _ Hl) as Hc.
    destruct (classified_reads _ _ _ Hc) as [Hg [f Hf]].
    replace (Z.to_nat (len data + -1)) with (length data - 1)%nat in Hg
      by (unfold len; lia).
    split.
    + destruct (decide (recorded s mac = Some (u8 data (length data - 1))))
        as [Hr|Hr].
      * by rewrite (decode_duplicate _ _ _ _ _ _ _ _ Ha Hc Hg Hr).
      * rewrite (decode_fresh _ _ _ _ _ _ _ _ _ Ha Hc Hg Hr Hf).
        apply lookup_insert_eq.
    + intros Hr. eexists.
      rewrite (decode_fresh _ _ _ _ _ _ _ _ _ Ha Hc Hg Hr Hf). done.
  - intros Hl. pose proof (classify_15 _ Hl) as Hc.
    destruct (classified_reads _ _ _ Hc) as [Hg [f Hf]].
    replace (Z.to_nat (len data + -2)) with (length data - 2)%nat in Hg
      by (unfold len; lia).
    split.
    + destruct (decide (recorded s mac = Some (u8 data (length data - 2))))
        as [Hr|Hr].
      * by rewrite (decode_duplicate _ _ _ _ _ _ _ _ Ha Hc Hg Hr).
      * rewrite (decode_fresh _ _ _ _ _ _ _ _ _ Ha Hc Hg Hr Hf).
        apply lookup_insert_eq.
    + intros Hr. eexists.
      rewrite (decode_fresh _ _ _ _ _ _ _ _ _ Ha Hc Hg Hr Hf). done.
Qed.

Lemma decode_classification_witness :
  decode_data_atc 0 mac1 foreign_packet fresh = (Ok None, fresh) /\
  decode_data_atc 0 mac1 short_packet fresh = (Ok None, fresh) /\
  (exists m, (decode_data_atc 0 mac1 (atc_packet x07) fresh).1 = Ok (Some m) /\
             device_type m = ATC1441 /\ adv_number m = 7) /\
  (exists m, (decode_data_atc 0 mac1 (pvvx_packet x07) fresh).1 = Ok (Some m) /\
             device_type m = PVVX /\ adv_number m = 7).
Proof.
  split; [|split; [|split]].
  - apply (decode_classification 0 mac1 foreign_packet fresh).
    exact foreign_packet_no_preamble.
  - apply (decode_classification 0 mac1 short_packet fresh)
      with (data := [x01; x02; x03; x04]).
    + exact short_packet_data.
    + vm_compute; discriminate.
    + vm_compute; discriminate.
  - destruct (decode_classification 0 mac1 (atc_packet x07) fresh) as [_ Hd].
    destruct (Hd (atc_data x07) (atc_packet_data x07)) as (_ & H13 & _).
    destruct (H13 eq_refl) as [_ Hm]. apply Hm.
    rewrite fresh_recorded. discriminate.
  - destruct (decode_classification 0 mac1 (pvvx_packet x07) fresh) as [_ Hd].
    destruct (Hd (pvvx_data x07) (pvvx_packet_data x07)) as (_ & _ & H15).
    destruct (H15 eq_refl) as [_ Hm]. apply Hm.
    rewrite fresh_recorded. discriminate.
Defined.

(** The fields of any measurement returned for 13 data bytes. *)
Lemma formatA_measurement now mac (packet data : list byte) (s : state) m :
  after_first packet preamble data -> len data = 13 ->
  (decode_data_atc now mac packet s).1 = Ok (Some m) ->
  m = {| device_type := ATC1441; adv_number := u8 data 12;
         adv_missed := missed (u8 data 12) (recorded s mac); timestamp := now;
         temperature := truediv_int_float (s16 (u16_be data 6)) 10%float;
         humidity := Int (u8 data 8);
         battery_voltage := u16_be data 10;
         battery_percentage := u8 data 9; sensor_name_of := "" |}.
Proof.
  intros Ha Hl H.
  apply decode_Some_inv in H as (data' & dt & off & f & Ha' & Hc & Hf & _ & ->).
  rewrite <- (after_first_unique _ _ _ _ Ha Ha') in *.
  rewrite (classify_13 _ Hl) in Hc. injection Hc as <- <-.
  rewrite fields_ATC1441 in Hf by lia. injection Hf as <-.
  rewrite Hl. reflexivity.
Qed.

(** The fields of any measurement returned for 15 data bytes. *)
Lemma formatB_measurement now mac (packet data : list byte) (s : state) m :
  after_first packet preamble data -> len data = 15 ->
  (decode_data_atc now mac packet s).1 = Ok (Some m) ->
  m = {| device_type := PVVX; adv_number := u8 data 13;
         adv_missed := missed (u8 data 13) (recorded s mac); timestamp := now;
         temperature := truediv_int_float (s16 (u16_le data 6)) 100%float;
         humidity := Float (truediv_int_int (u16_le data 8) 100);
         battery_voltage := u16_le data 10;
         battery_percentage := u8 data 12; sensor_name_of := "" |}.
Proof.
  intros Ha Hl H.
  apply decode_Some_inv in H as (data' & dt & off & f & Ha' & Hc & Hf & _ & ->).
  rewrite <- (after_first_unique _ _ _ _ Ha Ha') in *.
  rewrite (classify_15 _ Hl) in Hc. injection Hc as <- <-.
  rewrite fields_PVVX in Hf by lia. injection Hf as <-.
  rewrite Hl. reflexivity.
Qed.

(** A classified payload whose sequence byte is not the recorded one
    yields a measurement. *)
Lemma classified_fresh_decodes now mac (packet data : list byte) (s : state) dt off :
  after_first packet preamble data ->
  classify (len data) = Some (dt, off) ->
  recorded s mac <> Some (u8 data (Z.to_nat (len data + off))) ->
  exists m, (decode_data_atc now mac packet s).1 = Ok (Some m).
Proof.
  intros Ha Hc Hr. destruct (classified_reads _ _ _ Hc) as [Hg [f Hf]].
  eexists. by rewrite (decode_fresh _ _ _ _ _ _ _ _ _ Ha Hc Hg Hr Hf).
Qed.

(** C2, as amended. For 13 data bytes after the preamble, the measurement
    returned has: temperature, the big-endian signed 16-bit integer at
    offset 6 divided by 10; humidity, the byte at offset 8;
    battery_percentage, the byte at offset 9; battery_voltage, the
    BIG-endian unsigned 16-bit integer at offset 10. A measurement is
    returned whenever the sequence byte is not the recorded one. Bytes
    [0x00 0xFA] at offset 6 give 25.0. *)
Theorem decode_formatA_fields now mac (packet data : list byte) (s : state) :
  after_first packet preamble data -> len data = 13 ->
  (forall m, (decode_data_atc now mac packet s).1 = Ok (Some m) ->
     temperature m = PrimFloat.div (float_of_int (s16 (u16_be data 6))) 10%float /\
     humidity m = Int (u8 data 8) /\
     battery_percentage m = u8 data 9 /\
     battery_voltage m = u16_be data 10 /\
     (nth 6 data x00 = x00 -> nth 7 data x00 = xfa -> temperature m = 25%float)) /\
  (recorded s mac <> Some (u8 data 12) ->
     exists m, (decode_data_atc now mac packet s).1 = Ok (Some m)).
Proof.
  intros Ha Hl. split.
  - intros m H. rewrite (formatA_measurement _ _ _ _ _ _ Ha Hl H). simpl.
    repeat split. intros H6 H7. unfold u16_be, u8. by rewrite H6, H7.
  - intros Hr. apply (classified_fresh_decodes _ _ _ data _ ATC1441 (-1)); [done| |].
    + by apply classify_13.
    + by rewrite Hl.
Qed.

Lemma decode_formatA_fields_witness :
  exists m, (decode_data_atc 0 mac1 (atc_packet x07) fresh).1 = Ok (Some m) /\
            temperature m = 25%float /\ humidity m = Int 45 /\
            battery_percentage m = 90 /\ battery_voltage m = 3000.
Proof.
  destruct (decode_formatA_fields 0 mac1 (atc_packet x07) (atc_data x07) fresh
              (atc_packet_data x07) eq_refl) as [Hf He].
  destruct He as [m Hm]; [rewrite fresh_recorded; discriminate|].
  exists m. split; [exact Hm|].
  destruct (Hf m Hm) as (Ht & Hh & Hp & Hv & H25).
  split; [exact (H25 eq_refl eq_refl)|]. split; [exact Hh|].
  split; [exact Hp | exact Hv].
Defined.

(** C2, as stated, fails: the sample ATC1441 payload carries [0x0B 0xB8]
    at offset 10; the code reads 3000 millivolts, the little-endian
    reading is 47115. *)
Lemma formatA_battery_not_little_endian :
  (exists m, (decode_data_atc 0 mac1 (atc_packet x07) fresh).1 = Ok (Some m) /\
             battery_voltage m = 3000 /\
             u16_le (atc_data x07) 10 = 47115) /\
  ~ (forall now mac (packet data : list byte) (s : state) m,
       after_first packet preamble data -> len data = 13 ->
       (decode_data_atc now mac packet s).1 = Ok (Some m) ->
       battery_voltage m = u16_le data 10).
Proof.
  assert (exists m, (decode_data_atc 0 mac1 (atc_packet x07) fresh).1 = Ok (Some m) /\
                    battery_voltage m = 3000) as (m & Hm & Hv).
  { eexists. split; reflexivity. }
  split.
  - exists m. by repeat split.
  - intros H.
    specialize (H 0 mac1 (atc_packet x07) (atc_data x07) fresh m
                  (atc_packet_data x07) eq_refl Hm).
    rewrite Hv in H. vm_compute in H. discriminate H.
Qed.

(** C7. For 15 data bytes after the preamble, the measurement returned
    has: temperature, the little-endian signed 16-bit integer at offset 6
    divided by 100; humidity, the little-endian unsigned 16-bit integer at
    offset 8 divided by 100; battery_voltage, the little-endian unsigned
    16-bit integer at offset 10; battery_percentage, the byte at offset
    12. A measurement is returned whenever the sequence byte is not the
    recorded one. Bytes [0x70 0x17] at offset 8 give 60.0. *)
Theorem decode_formatB_fields now mac (packet data : list byte) (s : state) :
  after_first packet preamble data -> len data = 15 ->
  (forall m, (decode_data_atc now mac packet s).1 = Ok (Some m) ->
     temperature m = PrimFloat.div (float_of_int (s16 (u16_le data 6))) 100%float /\
     humidity m = Float (PrimFloat.div (float_of_int (u16_le data 8)) 100%float) /\
     battery_voltage m = u16_le data 10 /\
     battery_percentage m = u8 data 12 /\
     (nth 8 data x00 = x70 -> nth 9 data x00 = x17 -> humidity m = Float 60%float)) /\
  (recorded s mac <> Some (u8 data 13) ->
     exists m, (decode_data_atc now mac packet s).1 = Ok (Some m)).
Proof.
  intros Ha Hl. split.
  - intros m H. rewrite (formatB_measurement _ _ _ _ _ _ Ha Hl H). simpl.
    repeat split. intros H8 H9. unfold u16_le, u8. by rewrite H8, H9.
  - intros Hr. apply (classified_fresh_decodes _ _ _ data _ PVVX (-2)); [done| |].
    + by apply classify_15.
    + by rewrite Hl.
Qed.

Lemma decode_formatB_fields_witness :
  exists m, (decode_data_atc 0 mac1 (pvvx_packet x07) fresh).1 = Ok (Some m) /\
            humidity m = Float 60%float /\
            battery_voltage m = 3000 /\ battery_percentage m = 90.
Proof.
  destruct (decode_formatB_fields 0 mac1 (pvvx_packet x07) (pvvx_data x07) fresh
              (pvvx_packet_data x07) eq_refl) as [Hf He].
  destruct He as [m Hm]; [rewrite fresh_recorded; discriminate|].
  exists m. split; [exact Hm|].
  destruct (Hf m Hm) as (Ht & Hh & Hv & Hp & H60).
  split; [exact (H60 eq_refl eq_refl)|]. split; [exact Hv | exact Hp].
Defined.

(** *** Missed advertisements *)

(** The count every returned measurement carries. *)
Lemma decode_adv_missed now mac (packet : list byte) (s : state) m :
  (decode_data_atc now mac packet s).1 = Ok (Some m) ->
  adv_missed m = missed (adv_number m) (recorded s mac).
Proof.
  intros H.
  by apply decode_Some_inv in H as (data & dt & off & f & _ & _ & _ & _ & ->).
Qed.

(** Where the code and one-byte modular arithmetic agree: nothing
    recorded, or a recorded number that is not zero and below the
    current one. *)
Lemma missed_ascending (seq p : Z) :
  0 < p < seq -> seq < 256 ->
  missed seq (Some p) = (seq - p - 1) mod 256 /\ 0 <= missed seq (Some p).
Proof.
  intros Hp Hs. unfold missed.
  destruct (Z.eqb_spec p 0); [lia|].
  rewrite Z.mod_small by lia. lia.
Qed.

Lemma missed_nothing_recorded (seq : Z) : missed seq None = 0.
Proof. reflexivity. Qed.

(** The count is negative exactly when the counter went backwards from
    a recorded number other than zero, and it ignores a recorded zero. *)
Lemma missed_descending (seq p : Z) :
  p <> 0 -> seq < p -> missed seq (Some p) < 0.
Proof.
  intros Hp Hs. unfold missed. destruct (Z.eqb_spec p 0); lia.
Qed.

Lemma missed_after_zero (seq : Z) : missed seq (Some 0) = 0.
Proof. reflexivity. Qed.

(** C1, on the code. With 255 recorded, sequence byte 1 gives a missed
    count of -255, where one-byte arithmetic gives 1; with 0 recorded,
    sequence byte 5 gives 0, where it gives 4. *)
Theorem missed_count_at_wraparound :
  (exists m, (decode_data_atc 0 mac1 (atc_packet x01) (seen 255)).1 = Ok (Some m) /\
             adv_number m = 1 /\ adv_missed m = -255 /\
             (1 - 255 - 1) mod 256 = 1) /\
  (exists m, (decode_data_atc 0 mac1 (atc_packet x05) (seen 0)).1 = Ok (Some m) /\
             adv_number m = 5 /\ adv_missed m = 0 /\
             (5 - 0 - 1) mod 256 = 4).
Proof.
  split.
  - destruct (classified_fresh_decodes 0 mac1 (atc_packet x01) (atc_data x01)
                (seen 255) ATC1441 (-1) (atc_packet_data x01) eq_refl) as [m Hm].
    { rewrite seen_recorded. discriminate. }
    exists m. split; [exact Hm|].
    rewrite (formatA_measurement _ _ _ _ _ _ (atc_packet_data x01) eq_refl Hm).
    simpl. rewrite seen_recorded. done.
  - destruct (classified_fresh_decodes 0 mac1 (atc_packet x05) (atc_data x05)
                (seen 0) ATC1441 (-1) (atc_packet_data x05) eq_refl) as [m Hm].
    { rewrite seen_recorded. discriminate. }
    exists m. split; [exact Hm|].
    rewrite (formatA_measurement _ _ _ _ _ _ (atc_packet_data x05) eq_refl Hm).
    simpl. rewrite seen_recorded. done.
Qed.

(** *** Duplicates *)

Lemma handler_without_measurement now_dt now mac adv_type (data : list byte)
    rssi (s : state) :
  decode_data_atc now_dt mac data s = (Ok None, s) ->
  le_advertise_packet_handler now_dt now mac adv_type data rssi s = (Ok tt, s).
Proof.
  intros H. unfold le_advertise_packet_handler, bind. by rewrite H.
Qed.

(** C3. A measurement is returned only when its sequence byte differs
    from the one recorded for the address. When the sequence byte of a
    classified payload equals the recorded one, [decode_data_atc] returns
    [None] and the handler returns with the state as it was: nothing
    printed, neither dict touched. *)
Theorem duplicate_suppression now_dt now mac adv_type rssi
    (packet : list byte) (s : state) :
  (forall m, (decode_data_atc now_dt mac packet s).1 = Ok (Some m) ->
     recorded s mac <> Some (adv_number m)) /\
  (forall data dt off seq,
     after_first packet preamble data ->
     classify (len data) = Some (dt, off) ->
     getitem data off = Ok seq ->
     recorded s mac = Some seq ->
     decode_data_atc now_dt mac packet s = (Ok None, s) /\
     le_advertise_packet_handler now_dt now mac adv_type packet rssi s = (Ok tt, s)).
Proof.
  split.
  - intros m H.
    by apply decode_Some_inv in H as (data & dt & off & f & _ & _ & _ & Hr & ->).
  - intros data dt off seq Ha Hc Hg Hr.
    pose proof (decode_duplicate now_dt _ _ _ _ _ _ _ Ha Hc Hg Hr) as H.
    split; [exact H | by apply handler_without_measurement].
Qed.

Lemma duplicate_suppression_witness :
  decode_data_atc 0 mac1 (atc_packet x07) (seen 7) = (Ok None, seen 7) /\
  le_advertise_packet_handler 0 2%float mac1 0 (atc_packet x07) (-60) (seen 7)
    = (Ok tt, seen 7).
Proof.
  apply (duplicate_suppression 0 2%float mac1 0 (-60) (atc_packet x07) (seen 7))
    with (data := atc_data x07) (dt := ATC1441) (off := -1) (seq := 7).
  - exact (atc_packet_data x07).
  - reflexivity.
  - reflexivity.
  - exact (seen_recorded 7).
Defined.

(** *** Bounds *)

(** C10. With 13 or 15 data bytes after the preamble, each index the
    decoder reads is inside the data: the sequence byte at [-1] or [-2],
    the single bytes at 8, 9 and 12, the two-byte slices from 6, 8 and
    10. The call returns without raising. *)
Theorem decode_reads_in_bounds now mac (packet data : list byte) (s : state) :
  after_first packet preamble data ->
  len data = 13 \/ len data = 15 ->
  (len data = 13 ->
     getitem data (-1) = Ok (u8 data 12) /\
     getitem data 8 = Ok (u8 data 8) /\
     getitem data 9 = Ok (u8 data 9) /\
     len (slice data 6 8) = 2 /\ len (slice data 10 12) = 2) /\
  (len data = 15 ->
     getitem data (-2) = Ok (u8 data 13) /\
     getitem data 12 = Ok (u8 data 12) /\
     len (slice data 6 8) = 2 /\ len (slice data 8 10) = 2 /\
     len (slice data 10 12) = 2) /\
  (exists r, (decode_data_atc now mac packet s).1 = Ok r).
Proof.
  intros Ha Hl. split; [|split].
  - intros H. change (-1) with (Z.opp 1).
    rewrite getitem_neg, !getitem_nonneg by lia.
    rewrite (slice_pair data 6 8), (slice_pair data 10 12) by lia.
    rewrite H. done.
  - intros H. change (-2) with (Z.opp 2).
    rewrite getitem_neg, !getitem_nonneg by lia.
    rewrite (slice_pair data 6 8), (slice_pair data 8 10),
      (slice_pair data 10 12) by lia.
    rewrite H. done.
  - assert (exists dt off, classify (len data) = Some (dt, off)) as (dt & off & Hc).
    { destruct Hl as [Hl|Hl]; rewrite Hl; by eexists _, _. }
    destruct (classified_reads _ _ _ Hc) as [Hg [f Hf]].
    destruct (decide (recorded s mac = Some (u8 data (Z.to_nat (len data + off)))))
      as [Hr|Hr].
    + exists None. by rewrite (decode_duplicate _ _ _ _ _ _ _ _ Ha Hc Hg Hr).
    + eexists. by rewrite (decode_fresh _ _ _ _ _ _ _ _ _ Ha Hc Hg Hr Hf).
Qed.

Lemma decode_reads_in_bounds_witness :
  (getitem (atc_data x07) (-1) = Ok 7 /\
   exists r, (decode_data_atc 0 mac1 (atc_packet x07) fresh).1 = Ok r) /\
  (getitem (pvvx_data x07) (-2) = Ok 7 /\
   exists r, (decode_data_atc 0 mac1 (pvvx_packet x07) fresh).1 = Ok r).
Proof.
  split.
  - destruct (decode_reads_in_bounds 0 mac1 (atc_packet x07) (atc_data x07) fresh
                (atc_packet_data x07) (or_introl eq_refl)) as (H13 & _ & Hr).
    destruct (H13 eq_refl) as (Hg & _). split; [exact Hg | exact Hr].
  - destruct (decode_reads_in_bounds 0 mac1 (pvvx_packet x07) (pvvx_data x07) fresh
                (pvvx_packet_data x07) (or_intror eq_refl)) as (_ & H15 & Hr).
    destruct (H15 eq_refl) as (Hg & _). split; [exact Hg | exact Hr].
Defined.

End MiTHSpec.

(** ** The receive loop against its description *)

Module BtLeSpec.
Import Py PyFacts BtLe BtLeFacts.

Section Session.
Variable ba2str : list byte -> string.
Variable new_filter : hci_filter.
Variable HCIDEVUP : Z.
Variable H : Type.
Variable handler : string -> Z -> list byte -> Z -> M H unit.

Local Abbreviation receive_loop := (BtLe.receive_loop ba2str H handler).
Local Abbreviation loop_body := (BtLe.loop_body ba2str H handler).
Local Abbreviation parse_le_advertising_events :=
  (BtLe.parse_le_advertising_events ba2str new_filter H handler).
Local Abbreviation handle_le_advertising_events :=
  (BtLe.handle_le_advertising_events ba2str new_filter HCIDEVUP H handler).

(** *** Filter restoration *)

(** The call that restores the filter does not raise. *)
Lemma restore_filter_returns (old : hci_filter) (r : radio) :
  exists r', restore_filter old r = (Ok tt, r') /\
             calls r' = calls r ++ [SetFilter old] /\
             (setsockopt_faults r = [] -> installed_filter r' = old).
Proof.
  unfold restore_filter, try_except, setsockopt.
  destruct (setsockopt_faults r) as [|[|] fs]; simpl; eexists; by repeat split.
Qed.

(** On cancellation the saved filter is set again, as the last call on
    the socket, and the interrupt goes on to the caller. *)
Lemma cancellation_restores_filter (inbox : list recv_event) (st st' : radio * H) :
  setsockopt_faults st.1 = [] ->
  parse_le_advertising_events inbox st = (Raised KeyboardInterrupt, st') ->
  installed_filter st'.1 = installed_filter st.1 /\
  exists cs, calls st'.1 = cs ++ [SetFilter (installed_filter st.1)].
Proof.
  intros Hf. unfold BtLe.parse_le_advertising_events, on_radio, getsockopt, setsockopt.
  simpl. rewrite Hf. simpl.
  match goal with |- context [BtLe.receive_loop _ _ _ _ ?s] => set (st2 := s) end.
  pose proof (receive_loop_socket ba2str H handler inbox st2) as Hs.
  destruct (receive_loop inbox st2) as [[| e |] st3] eqn:E; try done.
  destruct e; try done.
  destruct (restore_filter_returns (installed_filter st.1) st3.1)
    as (r' & Hr & Hc & Hi).
  rewrite Hr. intros [= <-]. simpl. split.
  - apply Hi. simpl in Hs. destruct Hs as (_ & _ & Hs & _). by rewrite Hs.
  - by eexists.
Qed.

(** Any other exception leaves the loop with the new filter in place
    and no further call on the socket. *)
Lemma failure_keeps_new_filter (inbox : list recv_event) (st st' : radio * H) e :
  setsockopt_faults st.1 = [] ->
  parse_le_advertising_events inbox st = (Raised e, st') ->
  e <> KeyboardInterrupt ->
  installed_filter st'.1 = new_filter /\
  calls st'.1 = calls st.1 ++ [GetFilter; SetFilter new_filter].
Proof.
  intros Hf. unfold BtLe.parse_le_advertising_events, on_radio, getsockopt, setsockopt.
  simpl. rewrite Hf. simpl.
  match goal with |- context [BtLe.receive_loop _ _ _ _ ?s] => set (st2 := s) end.
  pose proof (receive_loop_socket ba2str H handler inbox st2) as Hs.
  destruct (receive_loop inbox st2) as [[| e' |] st3] eqn:E; try done.
  assert (forall st'', (Raised e', st3) = (Raised e, st'') ->
            e <> KeyboardInterrupt ->
            installed_filter st''.1 = new_filter /\
            calls st''.1 = calls st.1 ++ [GetFilter; SetFilter new_filter]) as Hgen.
  { intros st'' [= <- <-] _. simpl in Hs. destruct Hs as (_ & _ & _ & -> & ->).
    subst st2; simpl. by rewrite <- app_assoc. }
  destruct e'; try exact (Hgen st').
  destruct (restore_filter_returns (installed_filter st.1) st3.1)
    as (r' & Hr & _). rewrite Hr. intros [= <- _]. done.
Qed.

(** *** Short frames *)

Lemma receive_loop_frame_raise (pkt : list byte) (rest : list recv_event)
    (st st' : radio * H) e :
  loop_body (firstn 255 pkt) st = (Raise e, st') ->
  receive_loop (Frame pkt :: rest) st = (Raised e, st').
Proof. intros Hb. simpl. by rewrite Hb. Qed.

Lemma receive_loop_frame_next (pkt : list byte) (rest : list recv_event)
    (st st' : radio * H) :
  loop_body (firstn 255 pkt) st = (Ok tt, st') ->
  receive_loop (Frame pkt :: rest) st = receive_loop rest st'.
Proof. intros Hb. simpl. by rewrite Hb. Qed.

(** C8, as amended. The loop has no check of the frame length. A frame
    shorter than the 3-byte header makes the header unpack raise
    [struct.error], which ends the loop; so does an LE meta frame of exactly
    3 bytes, and an advertising report with fewer than 2 bytes after the
    sub-event. A frame with another event byte, or another sub-event byte,
    is dropped and the loop goes on to the next receive. A frame of 6 bytes
    or more that passes both checks is handed to the handler. *)
Theorem short_frames (pkt : list byte) (rest : list recv_event) (st : radio * H) :
  (len pkt < 3 ->
     receive_loop (Frame pkt :: rest) st = (Raised StructError, st)) /\
  (forall a e c l, firstn 255 pkt = a :: e :: c :: l ->
     byte_val e <> LE_META_EVENT ->
     receive_loop (Frame pkt :: rest) st = receive_loop rest st) /\
  (forall a c, pkt = [a; x3e; c] ->
     receive_loop (Frame pkt :: rest) st = (Raised StructError, st)) /\
  (forall a c d l, firstn 255 pkt = a :: x3e :: c :: d :: l ->
     byte_val d <> EVT_LE_ADVERTISING_REPORT ->
     receive_loop (Frame pkt :: rest) st = receive_loop rest st) /\
  (forall a c l, pkt = a :: x3e :: c :: x02 :: l -> (length l < 2)%nat ->
     receive_loop (Frame pkt :: rest) st = (Raised StructError, st)) /\
  (forall a c n t l, firstn 255 pkt = a :: x3e :: c :: x02 :: n :: t :: l ->
     loop_body (firstn 255 pkt) st =
       try_except
         (on_handler H (handler (ba2str (slice (n :: t :: l) 3 9))
                                (signed8 (byte_val t))
                                (slice (n :: t :: l) 9 (-1))
                                (signed8 (byte_val (List.last (t :: l) x00)))))
         is_Exception
         (fun e => on_radio H (bind (print (HandlerException e))
                                    (fun _ => print (Traceback e)))) st).
Proof.
  repeat split.
  - intros Hl. apply receive_loop_frame_raise.
    rewrite firstn_all2 by (unfold len in Hl; lia). by apply loop_body_short.
  - intros a e c l Hp He. apply receive_loop_frame_next.
    rewrite Hp. by apply loop_body_other_event.
  - intros a c ->. by apply receive_loop_frame_raise.
  - intros a c d l Hp Hd. apply receive_loop_frame_next.
    rewrite Hp. by apply loop_body_other_sub_event.
  - intros a c l -> Hl. apply receive_loop_frame_raise.
    destruct l as [|x [|y l]]; [reflexivity | reflexivity | simpl in Hl; lia].
  - intros a c n t l ->. apply loop_body_report.
Qed.

(** *** Handler failures *)

(** C9, as amended. An exception derived from [Exception] that the handler
    raises is caught and printed, and the loop goes on to the next receive.
    The loop ends only with an exception that [recv] raised (the interrupt,
    a socket failure), with a [struct.error] from unpacking a frame, or with
    an exception of the handler that is not derived from [Exception] (the
    interrupt arriving while the handler runs, [SystemExit]). *)
Theorem handler_failure_isolated :
  (forall (pkt : list byte) a c n t l (rest : list recv_event) (st : radio * H) e h',
     firstn 255 pkt = a :: x3e :: c :: x02 :: n :: t :: l ->
     handler (ba2str (slice (n :: t :: l) 3 9)) (signed8 (byte_val t))
             (slice (n :: t :: l) 9 (-1))
             (signed8 (byte_val (List.last (t :: l) x00))) st.2 = (Raise e, h') ->
     is_Exception e = true ->
     receive_loop (Frame pkt :: rest) st = receive_loop rest (logged e st.1, h')) /\
  (forall (inbox : list recv_event) (st : radio * H) e,
     (receive_loop inbox st).1 = Raised e ->
     In (RecvRaises e) inbox \/ e = StructError \/ is_Exception e = false).
Proof.
  split.
  - intros pkt a c n t l rest st e h' Hp Hh He.
    apply receive_loop_frame_next. rewrite Hp, loop_body_report.
    unfold try_except, on_handler. rewrite Hh, He.
    unfold on_radio, bind, print, modify, logged. simpl.
    by rewrite <- app_assoc.
  - intros inbox. induction inbox as [|ev inbox IH]; intros st e; simpl; [done|].
    destruct ev as [pkt|e'].
    + destruct (loop_body (firstn 255 pkt) st) as [[u|e'] st'] eqn:Hb.
      * intros Hr. destruct (IH _ _ Hr) as [Hin|Hother]; [left; by right | by right].
      * simpl. intros [= <-]. right. by apply loop_body_raises in Hb.
    + simpl. intros [= <-]. left. by left.
Qed.

(** *** The interrupt at the session entry point *)

(** C5, as amended. Take a session that starts up: the device number fits
    16 bits, the device comes up (or is up already), the socket opens and
    the new filter is installed. When the receive loop ends with
    [KeyboardInterrupt], the saved filter is set again, the scan-disable
    command is the last call on the radio, and the session returns to its
    caller normally: the interrupt goes no further. *)
Theorem interrupt_disables_scanning (device_id : Z) (inbox : list recv_event)
    (r : radio) (h : H) :
  0 <= device_id < 65536 ->
  ioctl_errno r = None \/ ioctl_errno r = Some EALREADY ->
  open_error r = None ->
  (forall fs, setsockopt_faults r <> true :: fs) ->
  (forall r', (receive_loop inbox (r', h)).1 = Raised KeyboardInterrupt) ->
  exists st' cs,
    handle_le_advertising_events device_id inbox (r, h) = (Returned, st') /\
    calls st'.1 =
      cs ++ [SetFilter (installed_filter r);
             SendCmd OGF_LE_CTL OCF_LE_SET_SCAN_ENABLE [x00; x00]].
Proof.
  intros Hid Hio Hop Hfs Hloop.
  unfold BtLe.handle_le_advertising_events, on_radio, device_enable, _toggle_device.
  destruct (Z.leb_spec 0 device_id); [|lia].
  destruct (Z.ltb_spec device_id 65536); [|lia]. simpl.
  assert (exists r1, (match ioctl_errno r with
                      | Some errno =>
                          if errno =? EALREADY
                          then (Ok tt, record_call (Ioctl HCIDEVUP (signed8 (device_id mod 256))) r)
                          else (Raise (OSError errno),
                                record_call (Ioctl HCIDEVUP (signed8 (device_id mod 256))) r)
                      | None => (Ok tt, record_call (Ioctl HCIDEVUP (signed8 (device_id mod 256))) r)
                      end) = (Ok tt, r1) /\
                     r1 = record_call (Ioctl HCIDEVUP (signed8 (device_id mod 256))) r)
    as (r1 & -> & ->).
  { destruct Hio as [-> | ->]; by eexists. }
  unfold open. simpl. rewrite Hop. simpl.
  unfold BtLe.parse_le_advertising_events, on_radio, getsockopt, setsockopt. simpl.
  destruct (setsockopt_faults r) as [|[|] fs] eqn:Hf; [|by destruct (Hfs fs)|].
  - simpl.
    match goal with |- context [BtLe.receive_loop _ _ _ _ ?s] => set (st2 := s) end.
    pose proof (Hloop st2.1) as Hl. change (st2.1, h) with st2 in Hl.
    destruct (receive_loop inbox st2) as [o st3]. simpl in Hl. subst o.
    destruct (restore_filter_returns (installed_filter r) st3.1) as (r' & -> & Hc & _).
    simpl. eexists _, _. split; [reflexivity|]. simpl.
    rewrite Hc, <- app_assoc. reflexivity.
  - simpl.
    match goal with |- context [BtLe.receive_loop _ _ _ _ ?s] => set (st2 := s) end.
    pose proof (Hloop st2.1) as Hl. change (st2.1, h) with st2 in Hl.
    destruct (receive_loop inbox st2) as [o st3]. simpl in Hl. subst o.
    destruct (restore_filter_returns (installed_filter r) st3.1) as (r' & -> & Hc & _).
    simpl. eexists _, _. split; [reflexivity|]. simpl.
    rewrite Hc, <- app_assoc. reflexivity.
Qed.

End Session.

(** *** On the sample radio *)

Import Samples.

Lemma short_frames_witness :
  BtLe.receive_loop ba2str _ keep [Frame stub_frame; Frame report_frame]
    (idle_radio, []) = (Raised StructError, (idle_radio, [])) /\
  BtLe.receive_loop ba2str _ keep [Frame [x04; x0e; x04; x01; x03; x0c; x00]]
    (idle_radio, []) = (Blocked, (idle_radio, [])) /\
  BtLe.receive_loop ba2str _ keep [Frame [x04; x3e; x00]]
    (idle_radio, []) = (Raised StructError, (idle_radio, [])) /\
  BtLe.receive_loop ba2str _ keep [Frame [x04; x3e; x02; x0d; x00]]
    (idle_radio, []) = (Blocked, (idle_radio, [])) /\
  BtLe.receive_loop ba2str _ keep [Frame [x04; x3e; x02; x02; x01]]
    (idle_radio, []) = (Raised StructError, (idle_radio, [])).
Proof.
  split; [|split; [|split; [|split]]].
  - apply (short_frames ba2str _ keep stub_frame). reflexivity.
  - destruct (short_frames ba2str _ keep [x04; x0e; x04; x01; x03; x0c; x00] []
                (idle_radio, [])) as (_ & Hdrop & _).
    rewrite (Hdrop x04 x0e x04 [x01; x03; x0c; x00] eq_refl); [reflexivity|].
    vm_compute; discriminate.
  - destruct (short_frames ba2str _ keep [x04; x3e; x00] [] (idle_radio, []))
      as (_ & _ & Hno & _).
    exact (Hno x04 x00 eq_refl).
  - destruct (short_frames ba2str _ keep [x04; x3e; x02; x0d; x00] []
                (idle_radio, [])) as (_ & _ & _ & Hdrop & _).
    rewrite (Hdrop x04 x02 x0d [x00] eq_refl); [reflexivity|].
    vm_compute; discriminate.
  - destruct (short_frames ba2str _ keep [x04; x3e; x02; x02; x01] []
                (idle_radio, [])) as (_ & _ & _ & _ & Hshort & _).
    apply (Hshort x04 x02 [x01] eq_refl). simpl; lia.
Defined.

(** C8, as stated, fails: after the two-byte frame the loop has ended with
    [struct.error]; the report that follows it is never received, where a
    loop that had dropped the frame would have handed it to the handler. *)
Lemma stub_frame_ends_loop :
  BtLe.receive_loop ba2str _ keep [Frame stub_frame; Frame report_frame]
    (idle_radio, []) = (Raised StructError, (idle_radio, [])) /\
  (BtLe.receive_loop ba2str _ keep [Frame report_frame] (idle_radio, [])).1
    = Blocked /\
  BtLe.receive_loop ba2str _ keep [Frame stub_frame; Frame report_frame]
    (idle_radio, [])
  <> BtLe.receive_loop ba2str _ keep [Frame report_frame] (idle_radio, []).
Proof.
  split; [reflexivity|]. split; [reflexivity|].
  vm_compute. discriminate.
Qed.

Lemma handler_failure_isolated_witness :
  BtLe.receive_loop ba2str _ (failing (OtherException "boom"))
    [Frame report_frame; RecvRaises KeyboardInterrupt] (idle_radio, tt)
  = (Raised KeyboardInterrupt, (logged (OtherException "boom") idle_radio, tt)) /\
  (In (RecvRaises KeyboardInterrupt) [Frame report_frame; RecvRaises KeyboardInterrupt]
   \/ KeyboardInterrupt = StructError \/ is_Exception KeyboardInterrupt = false).
Proof.
  destruct (handler_failure_isolated ba2str _ (failing (OtherException "boom")))
    as [Hcaught Honly].
  split.
  - rewrite (Hcaught report_frame x04 x21 x01 x00
               (skipn 6 report_frame) [RecvRaises KeyboardInterrupt]
               (idle_radio, tt) (OtherException "boom") tt);
      reflexivity.
  - apply (Honly [Frame report_frame; RecvRaises KeyboardInterrupt] (idle_radio, tt)).
    reflexivity.
Defined.

(** C9, as stated, fails in its last part: the two-byte frame ends the loop
    with [struct.error], which is neither the interrupt nor an exception
    that [recv] raised. *)
Lemma struct_error_ends_loop :
  (BtLe.receive_loop ba2str _ keep [Frame stub_frame] (idle_radio, [])).1
    = Raised StructError /\
  ~ (forall (inbox : list recv_event) st e,
       (BtLe.receive_loop ba2str _ keep inbox st).1 = Raised e ->
       e = KeyboardInterrupt \/ In (RecvRaises e) inbox).
Proof.
  split; [reflexivity|].
  intros Hall.
  destruct (Hall [Frame stub_frame] (idle_radio, []) StructError eq_refl)
    as [Hk | [Hin | []]]; discriminate.
Qed.

Lemma interrupt_disables_scanning_witness :
  exists st' cs,
    BtLe.handle_le_advertising_events ba2str new_filter HCIDEVUP _ keep 0
      [RecvRaises KeyboardInterrupt] (idle_radio, [])
    = (Returned, st') /\
    calls st'.1 =
      cs ++ [SetFilter (installed_filter idle_radio);
             SendCmd OGF_LE_CTL OCF_LE_SET_SCAN_ENABLE [x00; x00]].
Proof.
  apply (interrupt_disables_scanning ba2str new_filter HCIDEVUP _ keep 0
           [RecvRaises KeyboardInterrupt] idle_radio []).
  - lia.
  - left. reflexivity.
  - reflexivity.
  - intros fs. simpl. discriminate.
  - intros r'. reflexivity.
Defined.

(** C5, as stated, fails: with the interrupt raised by the first receive,
    the session entry point returns; no [KeyboardInterrupt] reaches its
    caller. *)
Lemma interrupt_is_swallowed :
  (BtLe.handle_le_advertising_events ba2str new_filter HCIDEVUP _ keep 0
     [RecvRaises KeyboardInterrupt] (idle_radio, [])).1 = Returned /\
  (BtLe.handle_le_advertising_events ba2str new_filter HCIDEVUP _ keep 0
     [RecvRaises KeyboardInterrupt] (idle_radio, [])).1 <> Raised KeyboardInterrupt.
Proof. split; [reflexivity|]. vm_compute. discriminate. Qed.

(** C4, on the code. When [recv] fails with an [OSError], the loop ends
    with that error and the socket keeps the filter the loop installed:
    the calls on the socket are the read of the old filter and the one set
    of the new filter. On the interrupt the old filter is set again. *)
Theorem recv_failure_skips_restore :
  (exists st',
     BtLe.parse_le_advertising_events ba2str new_filter _ keep
       [Frame report_frame; RecvRaises (OSError 9)] (idle_radio, [])
     = (Raised (OSError 9), st') /\
     installed_filter st'.1 = new_filter /\
     installed_filter st'.1 <> installed_filter idle_radio /\
     calls st'.1 = [GetFilter; SetFilter new_filter]) /\
  (exists st',
     BtLe.parse_le_advertising_events ba2str new_filter _ keep
       [Frame report_frame; RecvRaises KeyboardInterrupt] (idle_radio, [])
     = (Raised KeyboardInterrupt, st') /\
     installed_filter st'.1 = installed_filter idle_radio /\
     calls st'.1 = [GetFilter; SetFilter new_filter; SetFilter old_filter]).
Proof.
  split.
  - eexists. split; [reflexivity|]. split; [reflexivity|].
    split; [vm_compute; discriminate | reflexivity].
  - eexists. split; [reflexivity|]. split; reflexivity.
Qed.

End BtLeSpec.

(** ** Further facts about the Python primitives *)

Module PyMore.
Import Py PyFacts BtLe.

Lemma unsigned_be_acc (bs : list byte) (acc : Z) :
  fold_left (fun a b => a * 256 + byte_val b) bs acc
  = acc * 256 ^ len bs + unsigned_be bs.
Proof.
  unfold unsigned_be. revert acc.
  induction bs as [|b bs IH]; intros acc.
  - simpl. change (len []) with 0. lia.
  - simpl fold_left. rewrite IH, (IH (0 * 256 + byte_val b)).
    replace (len (b :: bs)) with (Z.succ (len bs)) by (unfold len; simpl length; lia).
    rewrite Z.pow_succ_r by apply len_nonneg. lia.
Qed.

Lemma byte_val_bounds (b : byte) : 0 <= byte_val b < 256.
Proof. unfold byte_val. pose proof (Byte.to_N_bounded b). lia. Qed.

Lemma unsigned_be_range (bs : list byte) : 0 <= unsigned_be bs < 256 ^ len bs.
Proof.
  induction bs as [|b bs IH].
  - unfold unsigned_be. simpl. change (len []) with 0. lia.
  - unfold unsigned_be. simpl fold_left. rewrite unsigned_be_acc.
    replace (len (b :: bs)) with (Z.succ (len bs)) by (unfold len; simpl length; lia).
    rewrite Z.pow_succ_r by apply len_nonneg.
    pose proof (byte_val_bounds b). nia.
Qed.

Lemma len_rev {A} (l : list A) : len (rev l) = len l.
Proof. unfold len. by rewrite length_rev. Qed.

Lemma pow_256 (n : Z) : 0 <= n -> 256 ^ n = 2 ^ (8 * n).
Proof. intros H. rewrite Z.pow_mul_r by lia. reflexivity. Qed.

(** X1. [int.from_bytes] on any bytes, in either byte order: the unsigned
    reading lies in [0, 2^(8n)); the signed reading of at least one byte
    lies in [-2^(8n-1), 2^(8n-1)); the two agree modulo [2^(8n)]. *)
Theorem int_from_bytes_range (bs : list byte) (order : byteorder) :
  0 <= int_from_bytes bs order false < 2 ^ (8 * len bs) /\
  (0 < len bs ->
     - 2 ^ (8 * len bs - 1) <= int_from_bytes bs order true < 2 ^ (8 * len bs - 1)) /\
  int_from_bytes bs order true mod 2 ^ (8 * len bs) = int_from_bytes bs order false.
Proof.
  unfold int_from_bytes.
  set (u := unsigned_be match order with big => bs | little => rev bs end).
  assert (0 <= u < 2 ^ (8 * len bs)) as Hu.
  { rewrite <- pow_256 by apply len_nonneg. subst u.
    destruct order; [apply unsigned_be_range|].
    rewrite <- len_rev. apply unsigned_be_range. }
  pose proof (len_nonneg bs) as Hn. simpl andb.
  split; [exact Hu|]. split.
  - intros Hpos.
    assert (2 ^ (8 * len bs) = 2 * 2 ^ (8 * len bs - 1)) as Hp.
    { rewrite <- Z.pow_succ_r by lia. f_equal. lia. }
    destruct (Z.ltb_spec 0 (8 * len bs)); [|lia]. simpl andb.
    destruct (Z.leb_spec (2 ^ (8 * len bs - 1)) u); lia.
  - destruct (Z.ltb_spec 0 (8 * len bs)); simpl andb.
    + destruct (Z.leb_spec (2 ^ (8 * len bs - 1)) u).
      * symmetry. apply (Z.mod_unique_pos _ _ (-1)); lia.
      * apply Z.mod_small; lia.
    + apply Z.mod_small; lia.
Qed.

Lemma byte_val_byte_of (z : Z) : byte_val (byte_of z) = z mod 256.
Proof.
  unfold byte_of, byte_val.
  pose proof (Z.mod_pos_bound z 256 eq_refl) as Hm.
  destruct (Byte.of_N (Z.to_N (z mod 256))) as [b|] eqn:E.
  - apply Byte.to_of_N in E. rewrite E. lia.
  - apply Byte.of_N_None_iff in E. lia.
Qed.



Lemma int_from_bytes_range_witness :
  - 2 ^ 15 <= int_from_bytes [xf6; x2e] big true < 2 ^ 15.
Proof.
  destruct (int_from_bytes_range [xf6; x2e] big) as (_ & Hs & _).
  apply Hs. reflexivity.
Defined.

End PyMore.

(** ** Further facts about the decoder *)

Module MiTHMore.
Import Py PyFacts MiTH MiTHFacts Samples MiTHSpec PyMore.

(** The sequence byte of classified data. *)
Local Abbreviation seq_of data off := (u8 data (Z.to_nat (len data + off))).

(** The two ways a call of [decode_data_atc] ends. *)
Lemma decode_outcome now mac (packet : list byte) (s : state) :
  decode_data_atc now mac packet s = (Ok None, s) \/
  exists data dt off f,
    after_first packet preamble data /\
    classify (len data) = Some (dt, off) /\
    fields dt data = Ok f /\
    recorded s mac <> Some (seq_of data off) /\
    decode_data_atc now mac packet s =
      (Ok (Some {| device_type := dt; adv_number := seq_of data off;
                   adv_missed := missed (seq_of data off) (recorded s mac);
                   timestamp := now;
                   temperature := f.1.1.1; humidity := f.1.1.2;
                   battery_voltage := f.1.2; battery_percentage := f.2;
                   sensor_name_of := "" |}),
       {| _adv_counter := <[mac := seq_of data off]> (_adv_counter s);
          _latest_measurement_time := _latest_measurement_time s;
          printed := printed s |}).
Proof.
  destruct (Z.eq_dec (find packet preamble) (-1)) as [E|E].
  { left. unfold decode_data_atc; cbv zeta. by rewrite E. }
  destruct (find_from_found _ _ _ E) as [data Ha].
  destruct (classify (len data)) as [[dt off]|] eqn:Hc.
  2: { left. by apply (decode_unclassified _ _ _ data). }
  destruct (classified_reads _ _ _ Hc) as [Hg [f Hf]].
  destruct (decide (recorded s mac = Some (seq_of data off))) as [Hr|Hr].
  { left. by apply (decode_duplicate _ _ _ data _ dt off (seq_of data off)). }
  right. exists data, dt, off, f. do 4 (split; [done|]).
  exact (decode_fresh _ _ _ _ _ _ _ _ _ Ha Hc Hg Hr Hf).
Qed.

(** What the handler does with a measurement. *)
Lemma handler_with_measurement now_dt now mac adv_type (data : list byte) rssi
    (s s1 : state) (m : Measurement) :
  decode_data_atc now_dt mac data s = (Ok (Some m), s1) ->
  le_advertise_packet_handler now_dt now mac adv_type data rssi s =
    (Ok tt,
     {| _adv_counter := _adv_counter s1;
        _latest_measurement_time := <[mac := now]> (_latest_measurement_time s1);
        printed := printed s1 ++
          [Reading (set_sensor_name m (sensor_name mac)) rssi
             (shown_elapsed (elapsed_since now (_latest_measurement_time s1 !! mac)))
             (if adv_missed m =? 0 then None else Some (adv_missed m))] |}).
Proof.
  intros Hd. unfold le_advertise_packet_handler, bind. rewrite Hd.
  reflexivity.
Qed.

Lemma handler_returns now_dt now mac adv_type (packet : list byte) rssi (s : state) :
  (le_advertise_packet_handler now_dt now mac adv_type packet rssi s).1 = Ok tt.
Proof.
  destruct (decode_outcome now_dt mac packet s)
    as [Hn | (data & dt & off & f & _ & _ & _ & _ & Hs)].
  - by rewrite (handler_without_measurement _ _ _ _ _ _ _ Hn).
  - by rewrite (handler_with_measurement _ _ _ _ _ _ _ _ _ Hs).
Qed.

(** A payload decoded once is a duplicate from then on. *)
Lemma decode_twice now_dt now_dt' mac (packet : list byte) (s : state) :
  decode_data_atc now_dt' mac packet (decode_data_atc now_dt mac packet s).2
    = (Ok None, (decode_data_atc now_dt mac packet s).2).
Proof.
  destruct (decode_outcome now_dt mac packet s)
    as [Hn | (data & dt & off & f & Ha & Hc & Hf & Hr & Hs)].
  - rewrite Hn. simpl.
    destruct (decode_outcome now_dt' mac packet s)
      as [H | (data & dt & off & f & Ha & Hc & Hf & Hr & _)]; [done|].
    assert (Hg := proj1 (classified_reads _ _ _ Hc)).
    rewrite (decode_fresh now_dt _ _ _ _ _ _ _ _ Ha Hc Hg Hr Hf) in Hn.
    discriminate Hn.
  - assert (Hg := proj1 (classified_reads _ _ _ Hc)).
    rewrite Hs. simpl.
    apply (decode_duplicate _ _ _ data _ dt off (seq_of data off)); try done.
    apply lookup_insert_eq.
Qed.

Lemma handler_twice now_dt now now_dt' now' mac adv_type (packet : list byte) rssi
    (s : state) :
  le_advertise_packet_handler now_dt' now' mac adv_type packet rssi
    (le_advertise_packet_handler now_dt now mac adv_type packet rssi s).2
  = (Ok tt, (le_advertise_packet_handler now_dt now mac adv_type packet rssi s).2).
Proof.
  apply handler_without_measurement.
  pose proof (decode_twice now_dt now_dt' mac packet s) as Ht.
  destruct (decode_outcome now_dt mac packet s)
    as [Hn | (data & dt & off & f & Ha & Hc & Hf & Hr & Hs)].
  - rewrite (handler_without_measurement _ now _ adv_type _ rssi _ Hn).
    by rewrite Hn in Ht.
  - rewrite (handler_with_measurement _ now _ adv_type _ rssi _ _ _ Hs).
    rewrite Hs in Ht. simpl in *.
    assert (Hg := proj1 (classified_reads _ _ _ Hc)).
    apply (decode_duplicate _ _ _ data _ dt off (seq_of data off)); try done.
    apply lookup_insert_eq.
Qed.

(** X3. Neither [decode_data_atc] nor the handler raises, whatever the
    address, the payload and the state. *)
Theorem decoder_never_raises now_dt now mac adv_type (packet : list byte) rssi
    (s : state) :
  (exists r, (decode_data_atc now_dt mac packet s).1 = Ok r) /\
  (le_advertise_packet_handler now_dt now mac adv_type packet rssi s).1 = Ok tt.
Proof.
  split; [|apply handler_returns].
  destruct (decode_outcome now_dt mac packet s)
    as [Hn | (data & dt & off & f & _ & _ & _ & _ & Hs)].
  - exists None. by rewrite Hn.
  - eexists. by rewrite Hs.
Qed.

(** X4. A call for one address leaves what is recorded for every other
    address as it was, the sequence number and the time of the last
    measurement alike; [decode_data_atc] on its own touches neither the
    times nor the output. *)
Theorem decoder_touches_one_address now_dt now mac adv_type (packet : list byte)
    rssi (s : state) :
  (forall mac', mac' <> mac ->
     _adv_counter (le_advertise_packet_handler now_dt now mac adv_type packet rssi s).2
       !! mac' = _adv_counter s !! mac' /\
     _latest_measurement_time
       (le_advertise_packet_handler now_dt now mac adv_type packet rssi s).2
       !! mac' = _latest_measurement_time s !! mac') /\
  _latest_measurement_time (decode_data_atc now_dt mac packet s).2
    = _latest_measurement_time s /\
  printed (decode_data_atc now_dt mac packet s).2 = printed s.
Proof.
  destruct (decode_outcome now_dt mac packet s)
    as [Hn | (data & dt & off & f & _ & _ & _ & _ & Hs)].
  - rewrite (handler_without_measurement _ now _ adv_type _ rssi _ Hn), Hn. done.
  - rewrite (handler_with_measurement _ now _ adv_type _ rssi _ _ _ Hs), Hs. simpl.
    split; [|done]. intros mac' Hne.
    by rewrite !lookup_insert_ne.
Qed.

Lemma decoder_touches_one_address_witness :
  _adv_counter
    (le_advertise_packet_handler 0 2%float "A4:C1:38:0A:0B:0C" 0 (atc_packet x09)
       (-60) (seen 7)).2 !! mac1 = Some 7.
Proof.
  destruct (decoder_touches_one_address 0 2%float "A4:C1:38:0A:0B:0C" 0
              (atc_packet x09) (-60) (seen 7)) as [Hother _].
  destruct (Hother mac1) as [Hc _]; [discriminate|].
  rewrite Hc. exact (seen_recorded 7).
Defined.

(** X5. The same payload from the same address a second time, at whatever
    time, gives [None] and changes nothing, whether the first call returned
    a measurement or not; so does the handler. *)
Theorem repeated_payload_is_ignored now_dt now now_dt' now' mac adv_type
    (packet : list byte) rssi (s : state) :
  decode_data_atc now_dt' mac packet (decode_data_atc now_dt mac packet s).2
    = (Ok None, (decode_data_atc now_dt mac packet s).2) /\
  le_advertise_packet_handler now_dt' now' mac adv_type packet rssi
    (le_advertise_packet_handler now_dt now mac adv_type packet rssi s).2
    = (Ok tt, (le_advertise_packet_handler now_dt now mac adv_type packet rssi s).2).
Proof.
  split; [apply decode_twice | apply handler_twice].
Qed.

(** X6. Two measurements in a row for one address: the second carries
    as missed count its own number minus the number of the first minus 1,
    unless the first number is 0, when the count is 0 (5 then 8 gives 2). *)
Theorem missed_between_measurements now1 now2 mac (p1 p2 : list byte)
    (s : state) (m1 m2 : Measurement) :
  (decode_data_atc now1 mac p1 s).1 = Ok (Some m1) ->
  (decode_data_atc now2 mac p2 (decode_data_atc now1 mac p1 s).2).1 = Ok (Some m2) ->
  adv_missed m2 =
    if adv_number m1 =? 0 then 0 else adv_number m2 - adv_number m1 - 1.
Proof.
  intros H1 H2. rewrite (decode_adv_missed _ _ _ _ _ H2).
  destruct (decode_outcome now1 mac p1 s)
    as [Hn | (data & dt & off & f & _ & _ & _ & _ & Hs)].
  - rewrite Hn in H1. discriminate H1.
  - rewrite Hs in *. simpl in H1. injection H1 as <-. simpl.
    unfold recorded. simpl. rewrite lookup_insert_eq. reflexivity.
Qed.

Lemma missed_between_measurements_witness :
  exists m1 m2,
    (decode_data_atc 0 mac1 (atc_packet x05) fresh).1 = Ok (Some m1) /\
    (decode_data_atc 1 mac1 (atc_packet x08)
       (decode_data_atc 0 mac1 (atc_packet x05) fresh).2).1 = Ok (Some m2) /\
    adv_missed m2 = 2.
Proof.
  eexists _, _. split; [reflexivity|]. split; [reflexivity|].
  exact (missed_between_measurements 0 1 mac1 (atc_packet x05) (atc_packet x08)
           fresh _ _ eq_refl eq_refl).
Defined.

Lemma u8_bounds (data : list byte) (i : nat) : 0 <= u8 data i < 256.
Proof. apply byte_val_bounds. Qed.

Lemma u16_be_bounds (data : list byte) (i : nat) : 0 <= u16_be data i < 65536.
Proof.
  unfold u16_be. pose proof (u8_bounds data i). pose proof (u8_bounds data (S i)). lia.
Qed.

Lemma u16_le_bounds (data : list byte) (i : nat) : 0 <= u16_le data i < 65536.
Proof.
  unfold u16_le. pose proof (u8_bounds data i). pose proof (u8_bounds data (S i)). lia.
Qed.

Lemma s16_bounds (u : Z) : 0 <= u < 65536 -> -32768 <= s16 u < 32768.
Proof. intros H. unfold s16. destruct (Z.ltb_spec u 32768); lia. Qed.

(** X7. Every measurement returned has a sequence number and a battery
    percentage of one byte, a battery voltage of 16 bits, a temperature that
    is a signed 16-bit integer divided by 10 (ATC1441) or by 100 (pvvx), and
    a humidity that is a byte (ATC1441) or a 16-bit integer divided by 100
    (pvvx). *)
Theorem measurement_ranges now mac (packet : list byte) (s : state) (m : Measurement) :
  (decode_data_atc now mac packet s).1 = Ok (Some m) ->
  0 <= adv_number m < 256 /\
  0 <= battery_voltage m < 65536 /\
  0 <= battery_percentage m < 256 /\
  (exists t, -32768 <= t < 32768 /\
     temperature m =
       truediv_int_float t
         match device_type m with ATC1441 => 10%float | PVVX => 100%float end) /\
  match device_type m with
  | ATC1441 => exists h, 0 <= h < 256 /\ humidity m = Int h
  | PVVX => exists h, 0 <= h < 65536 /\ humidity m = Float (truediv_int_int h 100)
  end.
Proof.
  intros H.
  apply decode_Some_inv in H as (data & dt & off & f & _ & Hc & Hf & _ & ->).
  simpl. split; [apply u8_bounds|].
  apply classify_Some in Hc as [(Hl & -> & ->)|(Hl & -> & ->)].
  - rewrite fields_ATC1441 in Hf by lia. injection Hf as <-. simpl.
    split; [apply u16_be_bounds|]. split; [apply u8_bounds|]. split.
    + eexists. split; [|reflexivity]. apply s16_bounds, u16_be_bounds.
    + eexists. split; [|reflexivity]. apply u8_bounds.
  - rewrite fields_PVVX in Hf by lia. injection Hf as <-. simpl.
    split; [apply u16_le_bounds|]. split; [apply u8_bounds|]. split.
    + eexists. split; [|reflexivity]. apply s16_bounds, u16_le_bounds.
    + eexists. split; [|reflexivity]. apply u16_le_bounds.
Qed.

Lemma measurement_ranges_witness :
  exists m, (decode_data_atc 0 mac1 (pvvx_packet xff) fresh).1 = Ok (Some m) /\
            0 <= adv_number m < 256 /\ 0 <= battery_voltage m < 65536.
Proof.
  eexists. split; [reflexivity|].
  destruct (measurement_ranges 0 mac1 (pvvx_packet xff) fresh _ eq_refl)
    as (Ha & Hv & _).
  split; [exact Ha | exact Hv].
Defined.

(** X8. If every recorded sequence number is a byte, it is so after any
    call of the handler, and every missed count returned lies between
    -256 and 253. *)
Theorem counters_stay_bytes now_dt now mac adv_type (packet : list byte) rssi
    (s : state) :
  map_Forall (fun _ n => 0 <= n < 256) (_adv_counter s) ->
  map_Forall (fun _ n => 0 <= n < 256)
    (_adv_counter (le_advertise_packet_handler now_dt now mac adv_type packet rssi s).2) /\
  (forall m, (decode_data_atc now_dt mac packet s).1 = Ok (Some m) ->
     -256 <= adv_missed m <= 253).
Proof.
  intros Hinv.
  destruct (decode_outcome now_dt mac packet s)
    as [Hn | (data & dt & off & f & _ & _ & _ & Hr & Hs)].
  - rewrite (handler_without_measurement _ now _ adv_type _ rssi _ Hn), Hn.
    split; [exact Hinv | discriminate].
  - rewrite (handler_with_measurement _ now _ adv_type _ rssi _ _ _ Hs), Hs. simpl.
    split.
    + apply map_Forall_insert_2; [apply u8_bounds | exact Hinv].
    + intros m [= <-]. simpl. unfold missed, recorded in *.
      pose proof (u8_bounds data (Z.to_nat (len data + off))) as Hb.
      destruct (_adv_counter s !! mac) as [p|] eqn:E; [|lia].
      apply Hinv in E. destruct (Z.eqb_spec p 0); [lia|].
      assert (u8 data (Z.to_nat (len data + off)) <> p) by congruence. lia.
Qed.

Lemma counters_stay_bytes_witness :
  map_Forall (fun _ n => 0 <= n < 256)
    (_adv_counter
       (le_advertise_packet_handler 0 2%float mac1 0 (atc_packet x09) (-60) fresh).2).
Proof.
  apply (counters_stay_bytes 0 2%float mac1 0 (atc_packet x09) (-60) fresh).
  apply map_Forall_empty.
Defined.

(** X9. The handler prints one line for a measurement and none otherwise.
    With a measurement, the state afterwards records its sequence number and
    the time [now] for the address; the line carries the measurement under
    the name of the address and the signal strength as given, no elapsed
    time when no time was recorded for the address, and a missed count
    exactly when it is not 0. *)
Theorem handler_records_measurement now_dt now mac adv_type (packet : list byte)
    rssi (s : state) :
  ((decode_data_atc now_dt mac packet s).1 = Ok None ->
     le_advertise_packet_handler now_dt now mac adv_type packet rssi s = (Ok tt, s)) /\
  (forall m, (decode_data_atc now_dt mac packet s).1 = Ok (Some m) ->
     recorded (le_advertise_packet_handler now_dt now mac adv_type packet rssi s).2 mac
       = Some (adv_number m) /\
     _latest_measurement_time
       (le_advertise_packet_handler now_dt now mac adv_type packet rssi s).2 !! mac
       = Some now /\
     exists elapsed shown_missed,
       printed (le_advertise_packet_handler now_dt now mac adv_type packet rssi s).2
         = printed s ++ [Reading (set_sensor_name m (sensor_name mac)) rssi
                           elapsed shown_missed] /\
       (_latest_measurement_time s !! mac = None -> elapsed = None) /\
       shown_missed = if adv_missed m =? 0 then None else Some (adv_missed m)).
Proof.
  destruct (decode_outcome now_dt mac packet s)
    as [Hn | (data & dt & off & f & _ & _ & _ & Hr & Hs)].
  - split; [intros _; by apply handler_without_measurement|].
    intros m H. rewrite Hn in H. discriminate H.
  - split; [intros H; rewrite Hs in H; discriminate H|].
    intros m H.
    rewrite (handler_with_measurement _ now _ adv_type _ rssi _ _ _ Hs).
    rewrite Hs in H. injection H as <-. simpl.
    split; [apply lookup_insert_eq|]. split; [apply lookup_insert_eq|].
    eexists _, _. split; [reflexivity|]. split; [|reflexivity].
    intros ->. reflexivity.
Qed.

Lemma handler_records_measurement_witness :
  le_advertise_packet_handler 0 2%float mac1 0 foreign_packet (-60) fresh
    = (Ok tt, fresh) /\
  _latest_measurement_time
    (le_advertise_packet_handler 0 2%float mac1 0 (atc_packet x09) (-60) fresh).2
    !! mac1 = Some 2%float.
Proof.
  destruct (handler_records_measurement 0 2%float mac1 0 foreign_packet (-60) fresh)
    as [Hnone _].
  destruct (handler_records_measurement 0 2%float mac1 0 (atc_packet x09) (-60) fresh)
    as [_ Hsome].
  split; [apply Hnone; reflexivity|].
  destruct (Hsome _ eq_refl) as (_ & Ht & _). exact Ht.
Defined.

(** X10. A measurement is returned only when the first preamble of the
    payload starts 16 bytes (ATC1441) or 18 bytes (pvvx) before its end; a
    payload shorter than 16 bytes is ignored. *)
Theorem measurement_needs_preamble_near_end now mac (packet : list byte) (s : state) :
  (forall m, (decode_data_atc now mac packet s).1 = Ok (Some m) ->
     (device_type m = ATC1441 /\ find packet preamble = len packet - 16) \/
     (device_type m = PVVX /\ find packet preamble = len packet - 18)) /\
  (len packet < 16 -> decode_data_atc now mac packet s = (Ok None, s)).
Proof.
  assert (forall data, after_first packet preamble data ->
            find packet preamble = len packet - 3 - len data) as Hpos.
  { intros data (pre & -> & Hmin). rewrite (find_preamble pre data Hmin).
    rewrite !len_app. change (len preamble) with 3. lia. }
  split.
  - intros m H.
    apply decode_Some_inv in H as (data & dt & off & f & Ha & Hc & _ & _ & ->).
    simpl. rewrite (Hpos _ Ha).
    apply classify_Some in Hc as [(Hl & -> & ->)|(Hl & -> & ->)];
      [left | right]; split; [done | lia | done | lia].
  - intros Hlen.
    destruct (decode_outcome now mac packet s)
      as [Hn | (data & dt & off & f & Ha & Hc & _ & _ & _)]; [exact Hn|].
    exfalso. pose proof (Hpos _ Ha) as Hp.
    destruct Ha as (pre & -> & Hmin).
    rewrite !len_app in Hlen. change (len preamble) with 3 in Hlen.
    pose proof (len_nonneg pre).
    apply classify_Some in Hc as [(Hl & _)|(Hl & _)]; lia.
Qed.

Lemma measurement_needs_preamble_near_end_witness :
  decode_data_atc 0 mac1 short_packet fresh = (Ok None, fresh) /\
  find (atc_packet x07) preamble = len (atc_packet x07) - 16.
Proof.
  destruct (measurement_needs_preamble_near_end 0 mac1 short_packet fresh) as [_ Hs].
  destruct (measurement_needs_preamble_near_end 0 mac1 (atc_packet x07) fresh)
    as [Hp _].
  split; [apply Hs; reflexivity|].
  destruct (Hp _ eq_refl) as [[_ H]|[Hd _]]; [exact H | discriminate Hd].
Defined.

(** *** Names *)

Lemma sensors_configured : sensors !! "A4:C1:38:xx:xx:xx" = Some "kitchen".
Proof. unfold sensors. apply lookup_insert_eq. Qed.

Lemma sensors_other (mac : string) :
  mac <> "A4:C1:38:xx:xx:xx" -> sensors !! mac = None.
Proof.
  intros H. unfold sensors. rewrite !lookup_insert_ne by done. apply lookup_empty.
Qed.

Lemma strip_prefix_spec (p s t : string) :
  strip_prefix p s = Some t -> s = p +:+ t.
Proof.
  revert s; induction p as [|a p IH]; intros s; simpl.
  - by intros [= ->].
  - destruct s as [|b s]; [done|].
    destruct (Ascii.eqb_spec a b) as [->|]; [|done].
    intros H. by rewrite (IH _ H).
Qed.

Lemma strip_prefix_length (p s t : string) :
  strip_prefix p s = Some t ->
  String.length s = (String.length p + String.length t)%nat.
Proof.
  revert s; induction p as [|a p IH]; intros s; simpl.
  - by intros [= ->].
  - destruct s as [|b s]; [done|].
    destruct (Ascii.eqb a b); [|done].
    intros H. simpl. by rewrite (IH _ H).
Qed.

(** The groups of a match are two characters each, and the address has
    the prefix and 17 characters at least. *)
Lemma match_mac_Some (mac g1 g2 g3 : string) :
  match_mac mac = Some (g1, g2, g3) ->
  String.length g1 = 2%nat /\ String.length g2 = 2%nat /\ String.length g3 = 2%nat /\
  (17 <= String.length mac)%nat /\ exists t, mac = "A4:C1:38:" +:+ t.
Proof.
  unfold match_mac.
  destruct (strip_prefix "A4:C1:38:" mac) as [t|] eqn:E; [|done].
  pose proof (strip_prefix_length _ _ _ E) as Hl.
  pose proof (strip_prefix_spec _ _ _ E) as Hm.
  destruct t as [|a [|b [|s1 [|c [|d [|s2 [|e [|f t]]]]]]]]; try done.
  destruct (_ && _); [|done].
  intros [= <- <- <-]. simpl in Hl. repeat split; try done; [lia|].
  by eexists.
Qed.

(** X11. The name of an address: the configured label for the one
    configured address; for any other address made of the vendor prefix,
    three colon-separated pairs of characters other than newline, and
    anything after them, the six characters of the pairs. *)
Theorem sensor_name_derived (a b c d e f : ascii) (rest : string) :
  sensor_name "A4:C1:38:xx:xx:xx" = "kitchen" /\
  (forallb not_newline [a; b; c; d; e; f] = true ->
   "A4:C1:38:" +:+ String a (String b (String ":" (String c (String d
      (String ":" (String e (String f rest))))))) <> "A4:C1:38:xx:xx:xx" ->
   sensor_name
     ("A4:C1:38:" +:+ String a (String b (String ":" (String c (String d
        (String ":" (String e (String f rest))))))))
   = String a (String b (String c (String d (String e (String f EmptyString)))))).
Proof.
  split; [reflexivity|].
  intros Hnl Hne. unfold sensor_name. rewrite (sensors_other _ Hne).
  unfold match_mac. simpl strip_prefix.
  cbv beta iota delta [String.append]. rewrite Hnl. reflexivity.
Qed.

Lemma sensor_name_derived_witness :
  sensor_name "A4:C1:38:0A:1B:2C" = "0A1B2C" /\
  sensor_name "A4:C1:38:0A:1B:2C (attic)" = "0A1B2C".
Proof.
  split.
  - apply (sensor_name_derived "0" "A" "1" "B" "2" "C" ""); [reflexivity|discriminate].
  - apply (sensor_name_derived "0" "A" "1" "B" "2" "C" " (attic)");
      [reflexivity|discriminate].
Defined.

(** X12. An address that does not begin with the vendor prefix, or that
    has fewer than 17 characters, is its own name. *)
Theorem sensor_name_fallback (mac : string) :
  (forall t, mac <> "A4:C1:38:" +:+ t) \/ (String.length mac < 17)%nat ->
  sensor_name mac = mac.
Proof.
  intros H. unfold sensor_name.
  assert (mac <> "A4:C1:38:xx:xx:xx") as Hne.
  { intros ->. destruct H as [H|H]; [by apply (H "xx:xx:xx") | simpl in H; lia]. }
  rewrite (sensors_other _ Hne).
  destruct (match_mac mac) as [[[g1 g2] g3]|] eqn:E; [|done].
  apply match_mac_Some in E as (_ & _ & _ & Hl & t & Ht).
  destruct H as [H|H]; [by destruct (H t) | lia].
Qed.

Lemma sensor_name_fallback_witness :
  sensor_name "C8:47:8C:01:02:03" = "C8:47:8C:01:02:03" /\
  sensor_name "A4:C1:38:01" = "A4:C1:38:01".
Proof.
  split.
  - apply sensor_name_fallback. left. intros t. discriminate.
  - apply sensor_name_fallback. right. simpl. lia.
Defined.

(** X13. The name is empty only for the empty address. *)
Theorem sensor_name_empty (mac : string) :
  sensor_name mac = "" <-> mac = "".
Proof.
  split; [|by intros ->].
  unfold sensor_name.
  destruct (decide (mac = "A4:C1:38:xx:xx:xx")) as [->|Hne]; [done|].
  rewrite (sensors_other _ Hne).
  destruct (match_mac mac) as [[[g1 g2] g3]|] eqn:E; [|done].
  apply match_mac_Some in E as (H1 & _).
  destruct g1; [done|]. discriminate.
Qed.

End MiTHMore.

(** ** Further facts about the radio and the receive loop *)

Module BtLeMore.
Import Py PyFacts BtLe BtLeFacts.

Lemma six_bytes (addr : list byte) :
  length addr = 6%nat -> exists a1 a2 a3 a4 a5 a6, addr = [a1; a2; a3; a4; a5; a6].
Proof.
  intros H. do 6 (destruct addr as [|? addr]; [discriminate H|]).
  destruct addr; [|discriminate H]. by repeat eexists.
Qed.

Lemma slice_data (pre data : list byte) (rssi : byte) :
  length pre = 9%nat ->
  slice (pre ++ data ++ [rssi]) 9 (-1) = data.
Proof.
  intros Hp. unfold slice, clamp.
  assert (len (pre ++ data ++ [rssi]) = 10 + len data) as ->.
  { rewrite !len_app. unfold len at 1 3. rewrite Hp. simpl length. lia. }
  pose proof (len_nonneg data).
  change (9 <? 0) with false. change (-1 <? 0) with true. cbv iota.
  rewrite Z.min_l, Z.max_r by lia.
  replace (Z.to_nat 9) with (length pre) by lia.
  rewrite drop_app_length.
  replace (Z.to_nat (-1 + (10 + len data) - 9)) with (length data)
    by (unfold len; lia).
  by rewrite take_app_length.
Qed.

Section Session.
Variable ba2str : list byte -> string.
Variable new_filter : hci_filter.
Variable HCIDEVUP : Z.
Variable H : Type.
Variable handler : string -> Z -> list byte -> Z -> M H unit.

Local Abbreviation receive_loop := (BtLe.receive_loop ba2str H handler).
Local Abbreviation loop_body := (BtLe.loop_body ba2str H handler).
Local Abbreviation parse_le_advertising_events :=
  (BtLe.parse_le_advertising_events ba2str new_filter H handler).
Local Abbreviation handle_le_advertising_events :=
  (BtLe.handle_le_advertising_events ba2str new_filter HCIDEVUP H handler).

(** The fields the loop cuts out of a whole advertising report. *)
Lemma loop_body_envelope (ptype plen num adv_type addr_type rssi : byte)
    (addr data : list byte) (st : radio * H) :
  length addr = 6%nat ->
  loop_body (ptype :: x3e :: plen :: x02 :: num :: adv_type :: addr_type
             :: addr ++ data ++ [rssi]) st =
    try_except
      (on_handler H (handler (ba2str addr) (signed8 (byte_val adv_type)) data
                             (signed8 (byte_val rssi))))
      is_Exception
      (fun e => on_radio H (bind (print (HandlerException e))
                                 (fun _ => print (Traceback e)))) st.
Proof.
  intros Ha. rewrite loop_body_report.
  change (num :: adv_type :: addr_type :: addr ++ data ++ [rssi])
    with ((num :: adv_type :: addr_type :: addr) ++ data ++ [rssi]).
  rewrite slice_data by (simpl; lia).
  replace (List.last (adv_type :: addr_type :: addr ++ data ++ [rssi]) x00) with rssi.
  2: { change (adv_type :: addr_type :: addr ++ data ++ [rssi])
         with ((adv_type :: addr_type :: addr) ++ data ++ [rssi]).
       by rewrite app_assoc, last_last. }
  replace (slice ((num :: adv_type :: addr_type :: addr) ++ data ++ [rssi]) 3 9)
    with addr; [reflexivity|].
  destruct (six_bytes _ Ha) as (a1 & a2 & a3 & a4 & a5 & a6 & ->).
  rewrite slice_inside; [reflexivity | lia |].
  rewrite !len_app. pose proof (len_nonneg data).
  change (len [num; adv_type; addr_type; a1; a2; a3; a4; a5; a6]) with 9.
  change (len [rssi]) with 1. lia.
Qed.

(** X14. A whole advertising report of at most 255 bytes (packet type,
    event [0x3E], length, sub-event [0x02], report count, advertisement
    type, address type, six address bytes, the data, the signal strength)
    reaches the handler with the address string of the six bytes, the
    advertisement type and the signal strength as signed bytes, and the data
    without the envelope; when the handler returns, the loop goes on to the
    next receive with the radio as it was. *)
Theorem report_reaches_handler (ptype plen num adv_type addr_type rssi : byte)
    (addr data : list byte) (rest : list recv_event) (st : radio * H) (h' : H) :
  length addr = 6%nat ->
  len data <= 241 ->
  handler (ba2str addr) (signed8 (byte_val adv_type)) data
          (signed8 (byte_val rssi)) st.2 = (Ok tt, h') ->
  receive_loop (Frame (ptype :: x3e :: plen :: x02 :: num :: adv_type :: addr_type
                       :: addr ++ data ++ [rssi]) :: rest) st
  = receive_loop rest (st.1, h').
Proof.
  intros Ha Hd Hh. simpl BtLe.receive_loop.
  rewrite firstn_all2.
  2: { simpl length. rewrite !length_app, Ha. simpl length. unfold len in Hd. lia. }
  rewrite loop_body_envelope by done.
  unfold try_except, on_handler. by rewrite Hh.
Qed.

(** The radio once the old filter is read and the new one installed. *)
Local Abbreviation after_install st :=
  ({| ioctl_errno := ioctl_errno st.1; open_error := open_error st.1;
      setsockopt_faults := tail (setsockopt_faults st.1);
      installed_filter := new_filter;
      calls := calls st.1 ++ [GetFilter; SetFilter new_filter];
      stdout := stdout st.1 |}, st.2).

Lemma parse_after_install (inbox : list recv_event) (st : radio * H) :
  (forall fs, setsockopt_faults st.1 <> true :: fs) ->
  parse_le_advertising_events inbox st =
    match receive_loop inbox (after_install st) with
    | (Raised KeyboardInterrupt, st3) =>
        (Raised KeyboardInterrupt,
         ((restore_filter (installed_filter st.1) st3.1).2, st3.2))
    | other => other
    end.
Proof.
  intros Hfs.
  assert (forall cs : list call,
            (cs ++ [GetFilter]) ++ [SetFilter new_filter]
            = cs ++ [GetFilter; SetFilter new_filter]) as Happ
    by (intros cs; by rewrite <- app_assoc).
  assert (forall st3 : radio * H,
            (let (r, st4) :=
               let '(a, r) := restore_filter (installed_filter st.1) st3.1 in
               (a, (r, st3.2)) in
             match r with
             | Ok _ => (Raised KeyboardInterrupt, st4)
             | Raise e0 => (Raised e0, st4)
             end)
            = (Raised KeyboardInterrupt,
               ((restore_filter (installed_filter st.1) st3.1).2, st3.2))) as Hres.
  { intros st3.
    destruct (BtLeSpec.restore_filter_returns (installed_filter st.1) st3.1)
      as (r' & Hr & _). by rewrite Hr. }
  unfold BtLe.parse_le_advertising_events, on_radio, getsockopt, setsockopt.
  simpl. rewrite Happ.
  destruct (setsockopt_faults st.1) as [|[|] fs] eqn:Hf; simpl.
  - destruct (receive_loop inbox _) as [[|e|] st3]; try reflexivity.
    destruct e; try reflexivity. apply Hres.
  - by destruct (Hfs fs).
  - destruct (receive_loop inbox _) as [[|e|] st3]; try reflexivity.
    destruct e; try reflexivity. apply Hres.
Qed.

(** X15. When the new filter can be installed, the calls that
    [parse_le_advertising_events] makes on the socket are: the read of the
    old filter, the set of the new one, and, exactly when it ends with
    [KeyboardInterrupt], one set of the old filter. It never returns. *)
Theorem socket_calls_of_parse (inbox : list recv_event) (st : radio * H) :
  (forall fs, setsockopt_faults st.1 <> true :: fs) ->
  (parse_le_advertising_events inbox st).1 <> Returned /\
  calls (parse_le_advertising_events inbox st).2.1 =
    calls st.1 ++ [GetFilter; SetFilter new_filter] ++
    match (parse_le_advertising_events inbox st).1 with
    | Raised KeyboardInterrupt => [SetFilter (installed_filter st.1)]
    | _ => []
    end.
Proof.
  intros Hfs. rewrite (parse_after_install _ _ Hfs).
  pose proof (receive_loop_socket ba2str H handler inbox (after_install st)) as Hs.
  pose proof (receive_loop_never_returns ba2str H handler inbox (after_install st)) as Hr.
  destruct (receive_loop inbox (after_install st)) as [o st3].
  simpl in Hs, Hr. destruct Hs as (_ & _ & _ & _ & Hc).
  assert (calls st3.1 = calls st.1 ++ [GetFilter; SetFilter new_filter] ++ []) as Hc'
    by (rewrite Hc; reflexivity).
  destruct o as [|e|]; [done| |done].
  destruct e; try done. simpl. split; [done|].
  destruct (BtLeSpec.restore_filter_returns (installed_filter st.1) st3.1)
    as (r' & -> & Hcr & _).
  simpl in Hc |- *. rewrite Hcr, Hc, <- app_assoc. reflexivity.
Qed.

Lemma parse_never_returns (inbox : list recv_event) (st : radio * H) :
  (parse_le_advertising_events inbox st).1 <> Returned.
Proof.
  unfold BtLe.parse_le_advertising_events, on_radio, getsockopt, setsockopt. simpl.
  destruct (match setsockopt_faults st.1 with b :: _ => b | [] => false end); [done|].
  match goal with |- context [BtLe.receive_loop _ _ _ _ ?s] => set (st2 := s) end.
  pose proof (receive_loop_never_returns ba2str H handler inbox st2) as Hr.
  destruct (receive_loop inbox st2) as [[|e|] st3]; [done| |done].
  destruct e; try done.
  destruct (BtLeSpec.restore_filter_returns (installed_filter st.1) st3.1)
    as (r' & -> & _). done.
Qed.

(** X16. When the new filter cannot be installed, the call ends with
    [bluez.error] at once: nothing is received, the handler is not called,
    and the socket keeps the filter it had. *)
Theorem install_failure (inbox : list recv_event) (st : radio * H) (fs : list bool) :
  setsockopt_faults st.1 = true :: fs ->
  exists r',
    parse_le_advertising_events inbox st = (Raised BluezError, (r', st.2)) /\
    installed_filter r' = installed_filter st.1 /\
    calls r' = calls st.1 ++ [GetFilter; SetFilter new_filter] /\
    stdout r' = stdout st.1.
Proof.
  intros Hf.
  unfold BtLe.parse_le_advertising_events, on_radio, getsockopt, setsockopt. simpl.
  rewrite Hf. simpl. eexists. split; [reflexivity|]. simpl.
  by rewrite <- app_assoc.
Qed.

(** X17. When the loop is interrupted and setting the old filter back
    fails, the failure is printed and the call still ends with
    [KeyboardInterrupt]; the socket keeps the new filter. *)
Theorem restore_failure_keeps_interrupt (inbox : list recv_event) (st : radio * H)
    (fs : list bool) :
  setsockopt_faults st.1 = false :: true :: fs ->
  (forall r', (receive_loop inbox (r', st.2)).1 = Raised KeyboardInterrupt) ->
  exists st' out,
    parse_le_advertising_events inbox st = (Raised KeyboardInterrupt, st') /\
    installed_filter st'.1 = new_filter /\
    stdout st'.1 = out ++ [FailedSettingFilter (installed_filter st.1) BluezError].
Proof.
  intros Hf Hloop. rewrite parse_after_install by (rewrite Hf; discriminate).
  pose proof (receive_loop_socket ba2str H handler inbox (after_install st)) as Hs.
  pose proof (Hloop (after_install st).1) as Hl.
  change ((after_install st).1, st.2) with (after_install st) in Hl.
  destruct (receive_loop inbox (after_install st)) as [o st3].
  simpl in Hl, Hs. subst o. destruct Hs as (_ & _ & Hfaults & Hfilter & _).
  rewrite Hf in Hfaults. simpl in Hfaults.
  eexists _, _. split; [reflexivity|].
  unfold restore_filter, try_except, setsockopt. rewrite Hfaults. simpl.
  split; [exact Hfilter | reflexivity].
Qed.

(** X18. An exception raised by [recv] always ends the loop: the loop is
    still waiting only if no receive in the script raises. *)
Theorem recv_failure_ends_loop (inbox : list recv_event) (st : radio * H) :
  (receive_loop inbox st).1 = Blocked ->
  forall e, ~ In (RecvRaises e) inbox.
Proof.
  revert st; induction inbox as [|ev inbox IH]; intros st; simpl; [intros _ e []|].
  destruct ev as [pkt|e']; [|done].
  destruct (loop_body (firstn 255 pkt) st) as [[u|e'] st']; [|done].
  intros Hb e [Hin|Hin]; [done|]. by apply (IH st' Hb e).
Qed.

(** X19. [_toggle_device] with a device number outside 16 bits raises
    [struct.error] before any call on the device. Otherwise it makes one
    [ioctl] with the low byte of the number; it returns when the call
    succeeds or fails with [EALREADY], and raises the [OSError] of any other
    failure. *)
Theorem toggle_device_errors (dev_id code : Z) (r : radio) :
  (~ 0 <= dev_id < 65536 -> _toggle_device dev_id code r = (Raise StructError, r)) /\
  (0 <= dev_id < 65536 ->
     calls (_toggle_device dev_id code r).2
       = calls r ++ [Ioctl code (signed8 (dev_id mod 256))] /\
     ((_toggle_device dev_id code r).1 = Ok tt <->
        ioctl_errno r = None \/ ioctl_errno r = Some EALREADY) /\
     (forall errno, ioctl_errno r = Some errno -> errno <> EALREADY ->
        (_toggle_device dev_id code r).1 = Raise (OSError errno))).
Proof.
  unfold _toggle_device. split.
  - intros Hr.
    destruct (Z.leb_spec 0 dev_id); [|reflexivity].
    destruct (Z.ltb_spec dev_id 65536); [lia | reflexivity].
  - intros Hr.
    destruct (Z.leb_spec 0 dev_id); [|lia].
    destruct (Z.ltb_spec dev_id 65536); [|lia]. simpl.
    destruct (ioctl_errno r) as [errno|] eqn:E.
    + destruct (Z.eqb_spec errno EALREADY) as [->|Hne]; simpl.
      * split; [done|]. split; [split; [by right | done]|].
        intros errno [= <-] Hne. done.
      * split; [done|]. split.
        -- split; [done|]. intros [Hn|[= He]]; done.
        -- by intros errno' [= <-] _.
    + simpl. split; [done|]. split; [split; [by left | done] | done].
Qed.

(** The radio once the device is up, the socket open and scanning on. *)
Local Abbreviation started device_id r :=
  {| ioctl_errno := ioctl_errno r; open_error := open_error r;
     setsockopt_faults := setsockopt_faults r;
     installed_filter := installed_filter r;
     calls := calls r ++
       [Ioctl HCIDEVUP (signed8 (device_id mod 256)); OpenDev device_id;
        SendCmd OGF_LE_CTL OCF_LE_SET_SCAN_PARAMETERS
          [x00; x00; x08; x00; x08; x00; x00];
        SendCmd OGF_LE_CTL OCF_LE_SET_SCAN_ENABLE [x01; x00]];
     stdout := stdout r |}.

Lemma handle_after_startup (device_id : Z) (inbox : list recv_event)
    (r : radio) (h : H) :
  0 <= device_id < 65536 ->
  ioctl_errno r = None \/ ioctl_errno r = Some EALREADY ->
  open_error r = None ->
  handle_le_advertising_events device_id inbox (r, h) =
    match parse_le_advertising_events inbox (started device_id r, h) with
    | (Raised KeyboardInterrupt, st4) =>
        (Returned,
         (record_call (SendCmd OGF_LE_CTL OCF_LE_SET_SCAN_ENABLE [x00; x00]) st4.1,
          st4.2))
    | other => other
    end.
Proof.
  intros Hid Hio Hop.
  set (r1 := record_call (Ioctl HCIDEVUP (signed8 (device_id mod 256))) r).
  set (r2 := record_call (OpenDev device_id) r1).
  assert (on_radio H (device_enable HCIDEVUP device_id) (r, h) = (Ok tt, (r1, h))) as E1.
  { unfold on_radio, device_enable, _toggle_device.
    destruct (Z.leb_spec 0 device_id); [|lia].
    destruct (Z.ltb_spec device_id 65536); [|lia]. simpl.
    destruct Hio as [-> | ->]; reflexivity. }
  assert (on_radio H (open device_id) (r1, h) = (Ok tt, (r2, h))) as E2.
  { unfold on_radio, open. simpl. by rewrite Hop. }
  assert (on_radio H le_scan_enable (r2, h) = (Ok tt, (started device_id r, h))) as E3.
  { unfold on_radio, le_scan_enable, bind, hci_send_cmd, modify, record_call.
    simpl. by rewrite <- !app_assoc. }
  unfold BtLe.handle_le_advertising_events. rewrite E1, E2, E3.
  by destruct (parse_le_advertising_events inbox _) as [[|e|] st4].
Qed.

(** X20. A session whose device does not come up, or whose socket does not
    open, ends there: after the one [ioctl] nothing is sent to the radio,
    nothing is received and the handler is not called. A failure of the
    [ioctl] other than [EALREADY] is raised as it is; a failure of the open
    is raised wrapped in an [Exception], unless it does not derive from
    [Exception]. *)
Theorem startup_failures (device_id : Z) (inbox : list recv_event)
    (r : radio) (h : H) :
  0 <= device_id < 65536 ->
  (forall errno, ioctl_errno r = Some errno -> errno <> EALREADY ->
     handle_le_advertising_events device_id inbox (r, h) =
       (Raised (OSError errno),
        (record_call (Ioctl HCIDEVUP (signed8 (device_id mod 256))) r, h))) /\
  (ioctl_errno r = None \/ ioctl_errno r = Some EALREADY ->
   forall e, open_error r = Some e ->
     handle_le_advertising_events device_id inbox (r, h) =
       (Raised (if is_Exception e
                then WrappedError "Error: cannot open bluetooth device" e
                else e),
        (record_call (Ioctl HCIDEVUP (signed8 (device_id mod 256))) r, h))).
Proof.
  intros Hid.
  unfold BtLe.handle_le_advertising_events, on_radio, device_enable, _toggle_device.
  destruct (Z.leb_spec 0 device_id); [|lia].
  destruct (Z.ltb_spec device_id 65536); [|lia]. simpl.
  split.
  - intros errno -> Hne. by destruct (Z.eqb_spec errno EALREADY).
  - intros Hio e He.
    assert ((match ioctl_errno r with
             | Some errno =>
                 if errno =? EALREADY
                 then (Ok tt, record_call (Ioctl HCIDEVUP (signed8 (device_id mod 256))) r)
                 else (Raise (OSError errno),
                       record_call (Ioctl HCIDEVUP (signed8 (device_id mod 256))) r)
             | None => (Ok tt, record_call (Ioctl HCIDEVUP (signed8 (device_id mod 256))) r)
             end) = (Ok tt, record_call (Ioctl HCIDEVUP (signed8 (device_id mod 256))) r))
      as -> by (destruct Hio as [-> | ->]; reflexivity).
    unfold open. simpl. rewrite He. by destruct (is_Exception e).
Qed.

(** X21. When a session that started up loses its loop to an exception
    other than [KeyboardInterrupt], that exception is raised to the caller,
    scanning is left enabled and the new filter installed: the calls made
    are those of the start-up, the read of the old filter and the set of the
    new one. *)
Theorem failure_leaves_scanning_on (device_id : Z) (inbox : list recv_event)
    (r : radio) (h : H) (e : exn) :
  0 <= device_id < 65536 ->
  ioctl_errno r = None \/ ioctl_errno r = Some EALREADY ->
  open_error r = None ->
  (forall fs, setsockopt_faults r <> true :: fs) ->
  e <> KeyboardInterrupt ->
  (forall r', (receive_loop inbox (r', h)).1 = Raised e) ->
  exists st',
    handle_le_advertising_events device_id inbox (r, h) = (Raised e, st') /\
    installed_filter st'.1 = new_filter /\
    calls st'.1 =
      calls r ++
      [Ioctl HCIDEVUP (signed8 (device_id mod 256)); OpenDev device_id;
       SendCmd OGF_LE_CTL OCF_LE_SET_SCAN_PARAMETERS
         [x00; x00; x08; x00; x08; x00; x00];
       SendCmd OGF_LE_CTL OCF_LE_SET_SCAN_ENABLE [x01; x00];
       GetFilter; SetFilter new_filter].
Proof.
  intros Hid Hio Hop Hfs Hne Hloop.
  rewrite handle_after_startup by done.
  rewrite parse_after_install by exact Hfs.
  set (st2 := after_install (started device_id r, h)).
  pose proof (receive_loop_socket ba2str H handler inbox st2) as Hs.
  pose proof (Hloop st2.1) as Hl. change (st2.1, h) with st2 in Hl.
  destruct (receive_loop inbox st2) as [o st3]. simpl in Hl, Hs. subst o.
  destruct Hs as (_ & _ & _ & Hfilter & Hcalls).
  exists st3. split; [by destruct e|].
  split; [exact Hfilter|]. rewrite Hcalls, <- app_assoc. reflexivity.
Qed.


End Session.

Lemma socket_calls_of_parse_witness :
  calls (BtLe.parse_le_advertising_events Samples.ba2str Samples.new_filter _
           Samples.keep [RecvRaises KeyboardInterrupt] (Samples.idle_radio, [])).2.1
  = [GetFilter; SetFilter Samples.new_filter; SetFilter Samples.old_filter].
Proof.
  refine (proj2 (socket_calls_of_parse Samples.ba2str Samples.new_filter _
                   Samples.keep [RecvRaises KeyboardInterrupt]
                   (Samples.idle_radio, []) _)).
  intros fs. simpl. discriminate.
Defined.

Import Samples MoreSamples.

Lemma report_reaches_handler_witness :
  BtLe.receive_loop ba2str _ keep [Frame report_frame] (idle_radio, [])
  = (Blocked, (idle_radio, [("A4:C1:38:01:02:03", 0, report_data, -60)])).
Proof.
  change report_frame
    with (x04 :: x3e :: x21 :: x02 :: x01 :: x00 :: x00
          :: report_addr ++ report_data ++ [xc4]).
  rewrite (report_reaches_handler ba2str _ keep x04 x21 x01 x00 x00 xc4
             report_addr report_data [] (idle_radio, [])
             [("A4:C1:38:01:02:03", 0, report_data, -60)]);
    [reflexivity | reflexivity | vm_compute; discriminate | reflexivity].
Defined.

Lemma install_failure_witness :
  exists r',
    BtLe.parse_le_advertising_events ba2str new_filter _ keep [Frame report_frame]
      (radio_with None None [true], [])
    = (Raised BluezError, (r', [])) /\
    installed_filter r' = old_filter.
Proof.
  destruct (install_failure ba2str new_filter _ keep [Frame report_frame]
              (radio_with None None [true], []) [] eq_refl)
    as (r' & Hp & Hf & _).
  exists r'. split; [exact Hp | exact Hf].
Defined.

Lemma restore_failure_keeps_interrupt_witness :
  exists st' out,
    BtLe.parse_le_advertising_events ba2str new_filter _ keep
      [RecvRaises KeyboardInterrupt] (radio_with None None [false; true], [])
    = (Raised KeyboardInterrupt, st') /\
    installed_filter st'.1 = new_filter /\
    stdout st'.1 = out ++ [FailedSettingFilter old_filter BluezError].
Proof.
  apply (restore_failure_keeps_interrupt ba2str new_filter _ keep
           [RecvRaises KeyboardInterrupt] (radio_with None None [false; true], []) []).
  - reflexivity.
  - intros r'. reflexivity.
Defined.

Lemma recv_failure_ends_loop_witness :
  ~ In (RecvRaises (OSError 9)) [Frame report_frame].
Proof.
  apply (recv_failure_ends_loop ba2str _ keep [Frame report_frame] (idle_radio, [])).
  reflexivity.
Defined.

Lemma toggle_device_errors_witness :
  (_toggle_device 0 HCIDEVUP (radio_with (Some EALREADY) None [])).1 = Ok tt /\
  _toggle_device 70000 HCIDEVUP idle_radio = (Raise StructError, idle_radio) /\
  (_toggle_device 0 HCIDEVUP (radio_with (Some 1) None [])).1 = Raise (OSError 1).
Proof.
  destruct (toggle_device_errors 0 HCIDEVUP (radio_with (Some EALREADY) None []))
    as [_ Hin].
  destruct (toggle_device_errors 70000 HCIDEVUP idle_radio) as [Hout _].
  destruct (toggle_device_errors 0 HCIDEVUP (radio_with (Some 1) None []))
    as [_ Hin1].
  split; [|split].
  - destruct Hin as (_ & Hok & _); [lia|]. apply Hok. right. reflexivity.
  - apply Hout. lia.
  - destruct Hin1 as (_ & _ & Hraise); [lia|].
    apply (Hraise 1); [reflexivity | vm_compute; discriminate].
Defined.

Lemma startup_failures_witness :
  (BtLe.handle_le_advertising_events ba2str new_filter HCIDEVUP _ keep 0
     [Frame report_frame] (radio_with (Some 1) None [], [])).1
  = Raised (OSError 1) /\
  (BtLe.handle_le_advertising_events ba2str new_filter HCIDEVUP _ keep 0
     [Frame report_frame] (radio_with None (Some (OSError 19)) [], [])).1
  = Raised (WrappedError "Error: cannot open bluetooth device" (OSError 19)).
Proof.
  destruct (startup_failures ba2str new_filter HCIDEVUP _ keep 0 [Frame report_frame]
              (radio_with (Some 1) None []) []) as [Hio _]; [lia|].
  destruct (startup_failures ba2str new_filter HCIDEVUP _ keep 0 [Frame report_frame]
              (radio_with None (Some (OSError 19)) []) []) as [_ Hop]; [lia|].
  split.
  - rewrite (Hio 1); [reflexivity | reflexivity | vm_compute; discriminate].
  - rewrite (Hop (or_introl eq_refl) (OSError 19) eq_refl). reflexivity.
Defined.

Lemma failure_leaves_scanning_on_witness :
  exists st',
    BtLe.handle_le_advertising_events ba2str new_filter HCIDEVUP _ keep 0
      [RecvRaises (OSError 9)] (idle_radio, [])
    = (Raised (OSError 9), st') /\
    installed_filter st'.1 = new_filter.
Proof.
  destruct (failure_leaves_scanning_on ba2str new_filter HCIDEVUP _ keep 0
              [RecvRaises (OSError 9)] idle_radio [] (OSError 9))
    as (st' & Hh & Hf & _).
  - lia.
  - left. reflexivity.
  - reflexivity.
  - intros fs. simpl. discriminate.
  - discriminate.
  - intros r'. reflexivity.
  - exists st'. split; [exact Hh | exact Hf].
Defined.


End BtLeMore.

(** ** The decoder under the receive loop *)

Module MainMore.
Import Py PyFacts MiTH MiTHFacts BtLe BtLeFacts.

Section Clock.
Variable wall : nat -> datetime.
Variable perf : nat -> float.
Variable ba2str : list byte -> string.
Variable new_filter : hci_filter.
Variable HCIDEVUP : Z.

Local Abbreviation handler := (Main.handler wall perf).
Local Abbreviation receive_loop := (BtLe.receive_loop ba2str (state * nat) handler).
Local Abbreviation loop_body := (BtLe.loop_body ba2str (state * nat) handler).
Local Abbreviation event_loop_passive :=
  (Main.event_loop_passive wall perf ba2str new_filter HCIDEVUP).

Lemma main_handler_returns mac adv_type (data : list byte) rssi (st : state * nat) :
  handler mac adv_type data rssi st =
    (Ok tt,
     ((le_advertise_packet_handler (wall st.2) (perf st.2) mac adv_type data rssi
         st.1).2,
      S st.2)).
Proof.
  unfold Main.handler.
  pose proof (MiTHMore.handler_returns (wall st.2) (perf st.2) mac adv_type data
                rssi st.1) as Hr.
  destruct (le_advertise_packet_handler _ _ _ _ _ _ _) as [res s']. simpl in Hr.
  by subst res.
Qed.

(** One pass of the loop with the decoder as handler: the radio is as it
    was, and only an unpack can raise. *)
Lemma loop_body_main (pkt : list byte) (st : radio * (state * nat)) :
  (loop_body pkt st).2.1 = st.1 /\
  forall e, (loop_body pkt st).1 = Raise e -> e = StructError.
Proof.
  unfold BtLe.loop_body, bind, lift.
  destruct (unpack_BBB _) as [[[ptype event] plen]|e0] eqn:E1.
  2: { split; [done|]. intros e [= <-]. by apply unpack_BBB_raises in E1. }
  destruct (negb (event =? LE_META_EVENT)); [done|].
  destruct (unpack_B _) as [sub|e0] eqn:E2.
  2: { split; [done|]. intros e [= <-]. by apply unpack_B_raises in E2. }
  destruct (negb (sub =? EVT_LE_ADVERTISING_REPORT)); [done|].
  destruct (unpack_b _) as [adv|e0] eqn:E3.
  2: { split; [done|]. intros e [= <-]. by apply unpack_b_raises in E3. }
  destruct (unpack_b (slice pkt _ _)) as [rssi|e0] eqn:E4.
  2: { split; [done|]. intros e [= <-]. by apply unpack_b_raises in E4. }
  unfold try_except, on_handler. rewrite main_handler_returns. done.
Qed.

Lemma receive_loop_main (inbox : list recv_event) (st : radio * (state * nat)) :
  (receive_loop inbox st).2.1 = st.1 /\
  ((receive_loop inbox st).1 = Blocked -> forall e, ~ In (RecvRaises e) inbox) /\
  (forall e, (receive_loop inbox st).1 = Raised e ->
     In (RecvRaises e) inbox \/ e = StructError).
Proof.
  revert st; induction inbox as [|ev inbox IH]; intros st; simpl.
  - split; [done|]. split; [intros _ e []|done].
  - destruct ev as [pkt|e'].
    + destruct (loop_body_main (firstn 255 pkt) st) as [Hr He].
      destruct (loop_body (firstn 255 pkt) st) as [[u|e'] st'].
      * destruct (IH st') as (Hr' & Hb' & He'). simpl in Hr.
        split; [by rewrite Hr'|]. split.
        -- intros Hb e [Hin|Hin]; [done|]. by apply (Hb' Hb e).
        -- intros e Hraise. destruct (He' e Hraise) as [Hin|Hs]; [left; by right|by right].
      * simpl in *. split; [done|]. split; [done|].
        intros e [= <-]. right. by apply He.
    + simpl. split; [done|]. split; [done|]. intros e [= <-]. left. by left.
Qed.

(** X23. With the decoder as handler, the receive loop leaves the radio
    as it was, output included: no handler failure is ever printed. The
    loop ends only with an exception that [recv] raised or with a
    [struct.error] from a short frame. *)
Theorem decoder_never_ends_loop (inbox : list recv_event)
    (st : radio * (state * nat)) :
  (receive_loop inbox st).2.1 = st.1 /\
  (forall e, (receive_loop inbox st).1 = Raised e ->
     In (RecvRaises e) inbox \/ e = StructError).
Proof.
  destruct (receive_loop_main inbox st) as (Hr & _ & He). by split.
Qed.

(** X24. A whole advertising report of at most 255 bytes is decoded: after
    it, the state of the decoder is what the handler makes of the address
    string, the advertisement type, the data and the signal strength at the
    current clock readings, and the count of calls is one more. *)
Theorem report_is_decoded (ptype plen num adv_type addr_type rssi : byte)
    (addr data : list byte) (rest : list recv_event)
    (r : radio) (s : state) (n : nat) :
  length addr = 6%nat ->
  len data <= 241 ->
  receive_loop (Frame (ptype :: x3e :: plen :: x02 :: num :: adv_type :: addr_type
                       :: addr ++ data ++ [rssi]) :: rest) (r, (s, n))
  = receive_loop rest
      (r, ((le_advertise_packet_handler (wall n) (perf n) (ba2str addr)
              (signed8 (byte_val adv_type)) data (signed8 (byte_val rssi)) s).2,
           S n)).
Proof.
  intros Ha Hd. simpl BtLe.receive_loop.
  rewrite firstn_all2.
  2: { simpl length. rewrite !length_app, Ha. simpl length. unfold len in Hd. lia. }
  rewrite BtLeMore.loop_body_envelope by done.
  unfold try_except, on_handler. rewrite main_handler_returns. reflexivity.
Qed.

(** X25. The same report received twice in a row leaves the decoder, its
    output included, as after the first: the second copy adds nothing but
    a call. *)
Theorem repeated_report_is_ignored (ptype plen num adv_type addr_type rssi : byte)
    (addr data : list byte) (r : radio) (s : state) (n : nat) :
  length addr = 6%nat ->
  len data <= 241 ->
  exists s1,
    receive_loop [Frame (ptype :: x3e :: plen :: x02 :: num :: adv_type :: addr_type
                         :: addr ++ data ++ [rssi])] (r, (s, n))
    = (Blocked, (r, (s1, S n))) /\
    receive_loop [Frame (ptype :: x3e :: plen :: x02 :: num :: adv_type :: addr_type
                         :: addr ++ data ++ [rssi]);
                  Frame (ptype :: x3e :: plen :: x02 :: num :: adv_type :: addr_type
                         :: addr ++ data ++ [rssi])] (r, (s, n))
    = (Blocked, (r, (s1, S (S n)))).
Proof.
  intros Ha Hd.
  assert (forall rest st,
            receive_loop
              (Frame (ptype :: x3e :: plen :: x02 :: num :: adv_type :: addr_type
                      :: addr ++ data ++ [rssi]) :: rest) st
            = receive_loop rest
                (st.1, ((le_advertise_packet_handler (wall st.2.2) (perf st.2.2)
                           (ba2str addr) (signed8 (byte_val adv_type)) data
                           (signed8 (byte_val rssi)) st.2.1).2,
                        S st.2.2))) as Hstep.
  { intros rest st. simpl BtLe.receive_loop.
    rewrite firstn_all2.
    2: { simpl length. rewrite !length_app, Ha. simpl length. unfold len in Hd. lia. }
    rewrite BtLeMore.loop_body_envelope by done.
    unfold try_except, on_handler. rewrite main_handler_returns. reflexivity. }
  eexists. split.
  - rewrite Hstep. reflexivity.
  - rewrite !Hstep. simpl. rewrite MiTHMore.handler_twice. reflexivity.
Qed.


End Clock.

Import Samples MoreSamples.

Lemma decoder_never_ends_loop_witness :
  In (RecvRaises (OSError 9)) [Frame report_frame; RecvRaises (OSError 9)]
  \/ OSError 9 = StructError.
Proof.
  destruct (decoder_never_ends_loop wall perf ba2str
              [Frame report_frame; RecvRaises (OSError 9)] (idle_radio, (fresh, 0%nat)))
    as [_ He].
  apply He. reflexivity.
Defined.

Lemma report_is_decoded_witness :
  exists s1,
    BtLe.receive_loop ba2str _ (Main.handler wall perf) [Frame report_frame]
      (idle_radio, (fresh, 0%nat)) = (Blocked, (idle_radio, (s1, 1%nat))) /\
    recorded s1 "A4:C1:38:01:02:03" = Some 7.
Proof.
  eexists. split.
  - change report_frame
      with (x04 :: x3e :: x21 :: x02 :: x01 :: x00 :: x00
            :: report_addr ++ report_data ++ [xc4]).
    rewrite (report_is_decoded wall perf ba2str x04 x21 x01 x00 x00 xc4
               report_addr report_data [] idle_radio fresh 0);
      [reflexivity | reflexivity | vm_compute; discriminate].
  - reflexivity.
Defined.

Lemma repeated_report_is_ignored_witness :
  exists s1,
    BtLe.receive_loop ba2str _ (Main.handler wall perf) [Frame report_frame]
      (idle_radio, (fresh, 0%nat)) = (Blocked, (idle_radio, (s1, 1%nat))) /\
    BtLe.receive_loop ba2str _ (Main.handler wall perf)
      [Frame report_frame; Frame report_frame]
      (idle_radio, (fresh, 0%nat)) = (Blocked, (idle_radio, (s1, 2%nat))).
Proof.
  change report_frame
    with (x04 :: x3e :: x21 :: x02 :: x01 :: x00 :: x00
          :: report_addr ++ report_data ++ [xc4]).
  apply (repeated_report_is_ignored wall perf ba2str x04 x21 x01 x00 x00 xc4
           report_addr report_data idle_radio fresh 0);
    [reflexivity | vm_compute; discriminate].
Defined.


End MainMore.
